(** * Docker snapshot collector (docker/snapshot.go)

    A shallow embedding of [CreateSnapshot] and of its per-resource steps,
    followed by the properties of the aggregation contract.

    Modelling choices.
    - The Docker engine is a record of answers, one per client method
      ([client.Client]); a method either answers or fails ([result]).
    - The struct behind [*portainer.DockerSnapshot] is the state of a small
      monad: a step reads and assigns its fields, and what a step leaves in
      the struct is known whether the step returns or panics.
    - A run either returns or panics ([outcome]).  The one place that can
      panic is the dereference of [response.Config], a pointer that is nil
      when the engine's answer to an inspection has no configuration.
    - Engine calls, warnings written to the logger and the deferred
      [cli.Close()] are recorded in an event trace.
    - [int64] values are integers with two's-complement wrap-around
      ([wrap64]); Go's [int] is taken to be 64 bits wide.  Counters that are
      only ever incremented once per element of a slice, and [len] of a slice
      or map, cannot leave the range of [int] and are natural numbers.
    - [map[string]string] is a [gmap string string]; a [map[string]struct{}]
      used as a set is a [gset string]. *)

From Stdlib Require Import ZArith Lia.
From stdpp Require Import gmap strings list fin_maps fin_sets.

Local Open Scope string_scope.
Local Open Scope list_scope.

(** ** Results, errors, events *)

Definition error : Type := string.

Inductive result (A : Type) : Type :=
| Ok (a : A)
| Err (e : error).
Arguments Ok {A} a.
Arguments Err {A} e.

Definition is_ok {A} (r : result A) : bool :=
  match r with Ok _ => true | Err _ => false end.

Inductive ApiOp : Type :=
| OpPing
| OpInfo
| OpServiceList
| OpNodeList
| OpContainerList
| OpContainerInspect (containerID : string)
| OpImageList
| OpVolumeList
| OpNetworkList
| OpServerVersion.

Inductive Event : Type :=
| ApiCall (op : ApiOp)
| Warn (err : error) (msg : string)
| Close.

Global Instance ApiOp_eq_dec : EqDecision ApiOp.
Proof. solve_decision. Defined.

Global Instance Event_eq_dec : EqDecision Event.
Proof. solve_decision. Defined.

(** ** Outcomes and the monad of a run *)

(** A Go call either returns or panics. *)
Inductive outcome (A : Type) : Type :=
| Returned (a : A)
| Panicked (reason : string).
Arguments Returned {A} a.
Arguments Panicked {A} reason.


(** What a computation leaves behind: the state, its outcome, its events. *)
Definition Run (S A : Type) : Type := ((S * outcome A) * list Event)%type.

Definition M (S A : Type) : Type := S -> Run S A.

Definition ret {S A} (a : A) : M S A := fun s => ((s, Returned a), []).

(** Sequencing; a panic skips what follows and keeps the state and the
    events reached. *)
Definition bind {S A B} (m : M S A) (f : A -> M S B) : M S B :=
  fun s =>
    match (m s).1.2 with
    | Returned a => ((f a (m s).1.1).1, (m s).2 ++ (f a (m s).1.1).2)
    | Panicked reason => (((m s).1.1, Panicked reason), (m s).2)
    end.

Definition emit {S} (e : Event) : M S unit := fun s => ((s, Returned tt), [e]).

Definition get {S} : M S S := fun s => ((s, Returned s), []).

(** An assignment to the state. *)
Definition assign {S} (f : S -> S) : M S unit := fun s => ((f s, Returned tt), []).

Definition panic {S A} (reason : string) : M S A := fun s => ((s, Panicked reason), []).

Notation "'let*' x ':=' m 'in' k" := (bind m (fun x => k))
  (at level 10, x pattern, m at level 100, k at level 200).
Notation "'run' m 'then' k" := (bind m (fun _ => k))
  (at level 10, m at level 100, k at level 200).

(** [call op r]: the engine is asked [op] and answers [r]. *)
Definition call {S A} (op : ApiOp) (r : result A) : M S (result A) :=
  run emit (ApiCall op) then ret r.

(** [if err != nil { log.Warn().Err(err).Msg(msg) }] *)
Definition warnOnError {S} (err : option error) (msg : string) : M S unit :=
  match err with
  | Some e => emit (Warn e msg)
  | None => ret tt
  end.

(** [for _, x := range l { body }] over a slice; [acc] stands for the local
    variables the body updates. *)
Fixpoint forRange {S A L} (body : A -> L -> M S L) (l : list A) (acc : L) : M S L :=
  match l with
  | [] => ret acc
  | x :: l' => let* acc' := body x acc in forRange body l' acc'
  end.

(** The panic of a nil pointer dereference. *)
Definition nilDereference : string :=
  "runtime error: invalid memory address or nil pointer dereference".

(** ** Strings: [strings.Contains] *)

Fixpoint HasPrefix (s prefix : string) : bool :=
  match prefix, s with
  | EmptyString, _ => true
  | String a p, String b s' => if decide (a = b) then HasPrefix s' p else false
  | String _ _, EmptyString => false
  end.

Fixpoint Contains (s substr : string) : bool :=
  HasPrefix s substr ||
  match s with
  | EmptyString => false
  | String _ s' => Contains s' substr
  end.

(** ** Fixed-width integers *)

Definition wrap64 (z : Z) : Z := ((z + 2 ^ 63) mod 2 ^ 64 - 2 ^ 63)%Z.

(** [a + b] on [int64]. *)
Definition add64 (a b : Z) : Z := wrap64 (a + b).

(** [a / b] on [int64]: Go truncates toward zero. *)
Definition quo64 (a b : Z) : Z := wrap64 (a ÷ b).

(** ** Engine data (github.com/docker/docker/api/types) *)

Module swarm.
Record Resources := { NanoCPUs : Z; MemoryBytes : Z }.
Record NodeDescription := { Hostname : string; Resources_ : Resources }.
Record Node := { ID : string; Description : NodeDescription }.

Record Annotations := { Name : string; Labels : gmap string string }.
Record Service := { ServiceID : string; Spec : Annotations }.

Record Info := { NodeID : string; ControlAvailable : bool }.
End swarm.

Module types.
Record Info := {
  ServerVersion : string;
  NCPU : Z;
  MemTotal : Z;
  Swarm : swarm.Info
}.

Record Container := {
  ID : string;
  Image : string;
  State : string;
  Status : string;
  Labels : gmap string string
}.

Record ContainerConfig := { Env : list string }.

(** [Config] is a pointer ([*container.Config]): [None] is [nil], the value
    it has when the engine's answer carries no configuration. *)
Record ContainerJSON := { Config : option ContainerConfig }.

Record ImageSummary := { ImageID : string; Size : Z }.
Record Volume := { VolumeName : string; Driver : string }.
Record VolumeListOKBody := { Volumes : list Volume; Warnings : list string }.
Record NetworkResource := { NetworkID : string; NetworkName : string }.
Record Version := { Version_ : string; APIVersion : string }.
End types.

(** ** The snapshot (github.com/portainer/portainer/api) *)

Module portainer.
Record DockerContainerSnapshot := {
  Container : types.Container;
  Env : list string
}.

Record DockerSnapshotRaw := {
  Containers : list DockerContainerSnapshot;
  Volumes : types.VolumeListOKBody;
  Networks : list types.NetworkResource;
  Images : list types.ImageSummary;
  Info : option types.Info;
  Version : option types.Version
}.

Record DockerSnapshot := {
  Time : Z;
  DockerVersion : string;
  Swarm : bool;
  TotalCPU : Z;
  TotalMemory : Z;
  RunningContainerCount : nat;
  StoppedContainerCount : nat;
  HealthyContainerCount : nat;
  UnhealthyContainerCount : nat;
  VolumeCount : nat;
  ImageCount : nat;
  ServiceCount : nat;
  StackCount : nat;
  NodeCount : nat;
  SnapshotRaw : DockerSnapshotRaw
}.

(** The zero value of the struct. *)
Definition zeroRaw : DockerSnapshotRaw :=
  {| Containers := []; Volumes := types.Build_VolumeListOKBody [] [];
     Networks := []; Images := []; Info := None; Version := None |}.

Definition zero : DockerSnapshot :=
  {| Time := 0; DockerVersion := ""; Swarm := false; TotalCPU := 0;
     TotalMemory := 0; RunningContainerCount := 0;
     StoppedContainerCount := 0; HealthyContainerCount := 0;
     UnhealthyContainerCount := 0; VolumeCount := 0; ImageCount := 0;
     ServiceCount := 0; StackCount := 0; NodeCount := 0;
     SnapshotRaw := zeroRaw |}.

(** Field assignments [snapshot.F = v]. *)
Definition setTime v s :=
  Build_DockerSnapshot v (DockerVersion s) (Swarm s) (TotalCPU s) (TotalMemory s)
    (RunningContainerCount s) (StoppedContainerCount s) (HealthyContainerCount s)
    (UnhealthyContainerCount s) (VolumeCount s) (ImageCount s) (ServiceCount s) (StackCount s)
    (NodeCount s) (SnapshotRaw s).
Definition setDockerVersion v s :=
  Build_DockerSnapshot (Time s) v (Swarm s) (TotalCPU s) (TotalMemory s)
    (RunningContainerCount s) (StoppedContainerCount s) (HealthyContainerCount s)
    (UnhealthyContainerCount s) (VolumeCount s) (ImageCount s) (ServiceCount s) (StackCount s)
    (NodeCount s) (SnapshotRaw s).
Definition setSwarm v s :=
  Build_DockerSnapshot (Time s) (DockerVersion s) v (TotalCPU s) (TotalMemory s)
    (RunningContainerCount s) (StoppedContainerCount s) (HealthyContainerCount s)
    (UnhealthyContainerCount s) (VolumeCount s) (ImageCount s) (ServiceCount s) (StackCount s)
    (NodeCount s) (SnapshotRaw s).
Definition setTotalCPU v s :=
  Build_DockerSnapshot (Time s) (DockerVersion s) (Swarm s) v (TotalMemory s)
    (RunningContainerCount s) (StoppedContainerCount s) (HealthyContainerCount s)
    (UnhealthyContainerCount s) (VolumeCount s) (ImageCount s) (ServiceCount s) (StackCount s)
    (NodeCount s) (SnapshotRaw s).
Definition setTotalMemory v s :=
  Build_DockerSnapshot (Time s) (DockerVersion s) (Swarm s) (TotalCPU s) v
    (RunningContainerCount s) (StoppedContainerCount s) (HealthyContainerCount s)
    (UnhealthyContainerCount s) (VolumeCount s) (ImageCount s) (ServiceCount s) (StackCount s)
    (NodeCount s) (SnapshotRaw s).
Definition setRunningContainerCount v s :=
  Build_DockerSnapshot (Time s) (DockerVersion s) (Swarm s) (TotalCPU s) (TotalMemory s) v
    (StoppedContainerCount s) (HealthyContainerCount s) (UnhealthyContainerCount s)
    (VolumeCount s) (ImageCount s) (ServiceCount s) (StackCount s) (NodeCount s) (SnapshotRaw s)
    .
Definition setStoppedContainerCount v s :=
  Build_DockerSnapshot (Time s) (DockerVersion s) (Swarm s) (TotalCPU s) (TotalMemory s)
    (RunningContainerCount s) v (HealthyContainerCount s) (UnhealthyContainerCount s)
    (VolumeCount s) (ImageCount s) (ServiceCount s) (StackCount s) (NodeCount s) (SnapshotRaw s)
    .
Definition setHealthyContainerCount v s :=
  Build_DockerSnapshot (Time s) (DockerVersion s) (Swarm s) (TotalCPU s) (TotalMemory s)
    (RunningContainerCount s) (StoppedContainerCount s) v (UnhealthyContainerCount s)
    (VolumeCount s) (ImageCount s) (ServiceCount s) (StackCount s) (NodeCount s) (SnapshotRaw s)
    .
Definition setUnhealthyContainerCount v s :=
  Build_DockerSnapshot (Time s) (DockerVersion s) (Swarm s) (TotalCPU s) (TotalMemory s)
    (RunningContainerCount s) (StoppedContainerCount s) (HealthyContainerCount s) v
    (VolumeCount s) (ImageCount s) (ServiceCount s) (StackCount s) (NodeCount s) (SnapshotRaw s)
    .
Definition setVolumeCount v s :=
  Build_DockerSnapshot (Time s) (DockerVersion s) (Swarm s) (TotalCPU s) (TotalMemory s)
    (RunningContainerCount s) (StoppedContainerCount s) (HealthyContainerCount s)
    (UnhealthyContainerCount s) v (ImageCount s) (ServiceCount s) (StackCount s) (NodeCount s)
    (SnapshotRaw s).
Definition setImageCount v s :=
  Build_DockerSnapshot (Time s) (DockerVersion s) (Swarm s) (TotalCPU s) (TotalMemory s)
    (RunningContainerCount s) (StoppedContainerCount s) (HealthyContainerCount s)
    (UnhealthyContainerCount s) (VolumeCount s) v (ServiceCount s) (StackCount s) (NodeCount s)
    (SnapshotRaw s).
Definition setServiceCount v s :=
  Build_DockerSnapshot (Time s) (DockerVersion s) (Swarm s) (TotalCPU s) (TotalMemory s)
    (RunningContainerCount s) (StoppedContainerCount s) (HealthyContainerCount s)
    (UnhealthyContainerCount s) (VolumeCount s) (ImageCount s) v (StackCount s) (NodeCount s)
    (SnapshotRaw s).
Definition setStackCount v s :=
  Build_DockerSnapshot (Time s) (DockerVersion s) (Swarm s) (TotalCPU s) (TotalMemory s)
    (RunningContainerCount s) (StoppedContainerCount s) (HealthyContainerCount s)
    (UnhealthyContainerCount s) (VolumeCount s) (ImageCount s) (ServiceCount s) v (NodeCount s)
    (SnapshotRaw s).
Definition setNodeCount v s :=
  Build_DockerSnapshot (Time s) (DockerVersion s) (Swarm s) (TotalCPU s) (TotalMemory s)
    (RunningContainerCount s) (StoppedContainerCount s) (HealthyContainerCount s)
    (UnhealthyContainerCount s) (VolumeCount s) (ImageCount s) (ServiceCount s) (StackCount s) v
    (SnapshotRaw s).
Definition setSnapshotRaw v s :=
  Build_DockerSnapshot (Time s) (DockerVersion s) (Swarm s) (TotalCPU s) (TotalMemory s)
    (RunningContainerCount s) (StoppedContainerCount s) (HealthyContainerCount s)
    (UnhealthyContainerCount s) (VolumeCount s) (ImageCount s) (ServiceCount s) (StackCount s)
    (NodeCount s) v.

(** Field assignments [snapshot.SnapshotRaw.F = v]. *)
Definition setRawContainers v s :=
  setSnapshotRaw
    (let r := SnapshotRaw s in
     Build_DockerSnapshotRaw v (Volumes r) (Networks r) (Images r) (Info r) (Version r))
    s.
Definition setRawVolumes v s :=
  setSnapshotRaw
    (let r := SnapshotRaw s in
     Build_DockerSnapshotRaw (Containers r) v (Networks r) (Images r) (Info r) (Version r))
    s.
Definition setRawNetworks v s :=
  setSnapshotRaw
    (let r := SnapshotRaw s in
     Build_DockerSnapshotRaw (Containers r) (Volumes r) v (Images r) (Info r) (Version r))
    s.
Definition setRawImages v s :=
  setSnapshotRaw
    (let r := SnapshotRaw s in
     Build_DockerSnapshotRaw (Containers r) (Volumes r) (Networks r) v (Info r) (Version r))
    s.
Definition setRawInfo v s :=
  setSnapshotRaw
    (let r := SnapshotRaw s in
     Build_DockerSnapshotRaw (Containers r) (Volumes r) (Networks r) (Images r) v (Version r))
    s.
Definition setRawVersion v s :=
  setSnapshotRaw
    (let r := SnapshotRaw s in
     Build_DockerSnapshotRaw (Containers r) (Volumes r) (Networks r) (Images r) (Info r) v)
    s.
End portainer.

(** ** The engine, seen through [*client.Client] *)

Module client.
Record Client := {
  Ping : result unit;
  Info : result types.Info;
  ServiceList : result (list swarm.Service);
  NodeList : result (list swarm.Node);
  ContainerList : result (list types.Container);
  ContainerInspect : string -> result types.ContainerJSON;
  ImageList : result (list types.ImageSummary);
  VolumeList : result types.VolumeListOKBody;
  NetworkList : result (list types.NetworkResource);
  ServerVersion : result types.Version
}.
End client.

(** What [CreateSnapshot] reads from its surroundings: the outcome of
    [client.NewClientWithOpts(client.FromEnv, ...)] and the clock. *)
Record Host := {
  NewClientWithOpts : result client.Client;
  Now : Z
}.

Import portainer.


(** ** The collection steps *)

(** A step is called with the snapshot pointer and the client; it leaves
    the struct as it wrote it and returns an [error] or panics. *)
Definition Step : Type :=
  DockerSnapshot -> client.Client -> Run DockerSnapshot (option error).

(** [for k, v := range labels { if k == key { stacks[v] = struct{}{} } }].
    Go visits the entries of a map in an unspecified order; [map_fold] fixes
    one, and [rangeLabels_lookup] below shows that the order is immaterial. *)
Definition rangeLabels (key : string) (labels : gmap string string)
    (stacks : gset string) : gset string :=
  map_fold (fun k v acc => if decide (k = key) then {[ v ]} ∪ acc else acc)
           stacks labels.

Definition snapshotInfo : Step := fun snapshot cli =>
  (let* r := call OpInfo (client.Info cli) in
   match r with
   | Err err => ret (Some err)
   | Ok info =>
       run assign (setSwarm (swarm.ControlAvailable (types.Swarm info))) then
       run assign (setDockerVersion (types.ServerVersion info)) then
       run assign (setTotalCPU (types.NCPU info)) then
       run assign (setTotalMemory (types.MemTotal info)) then
       run assign (setRawInfo (Some info)) then
       ret None
   end) snapshot.

(** The loop of [snapshotNodes]; the state is [(nanoCpus, totalMem)]. *)
Definition sumNodes (nodes : list swarm.Node) : Z * Z :=
  fold_left
    (fun acc node =>
       (add64 acc.1 (swarm.NanoCPUs (swarm.Resources_ (swarm.Description node))),
        add64 acc.2 (swarm.MemoryBytes (swarm.Resources_ (swarm.Description node)))))
    nodes (0%Z, 0%Z).

Definition snapshotNodes : Step := fun snapshot cli =>
  (let* r := call OpNodeList (client.NodeList cli) in
   match r with
   | Err err => ret (Some err)
   | Ok nodes =>
       let sums := sumNodes nodes in
       let nanoCpus := sums.1 in
       let totalMem := sums.2 in
       run assign (setTotalCPU (quo64 nanoCpus (10 ^ 9))) then
       run assign (setTotalMemory totalMem) then
       run assign (setNodeCount (length nodes)) then
       ret None
   end) snapshot.

(** The loop of [snapshotSwarmServices]; the state is [stacks]. *)
Definition serviceStacks (services : list swarm.Service) : gset string :=
  fold_left
    (fun stacks service =>
       rangeLabels "com.docker.stack.namespace"
                   (swarm.Labels (swarm.Spec service)) stacks)
    services ∅.

Definition snapshotSwarmServices : Step := fun snapshot cli =>
  (let* r := call OpServiceList (client.ServiceList cli) in
   match r with
   | Err err => ret (Some err)
   | Ok services =>
       let stacks := serviceStacks services in
       run assign (setServiceCount (length services)) then
       run assign (fun s => setStackCount (StackCount s + size stacks) s) then
       ret None
   end) snapshot.

(** Body of the first loop of [snapshotContainers]: inspect one container
    and append it.  A failed inspection is logged and the container kept
    without environment; an answered one is kept with [response.Config.Env],
    and reading that through a nil [Config] panics before anything is
    appended. *)
Definition inspectContainer (cli : client.Client) (container : types.Container)
    (containers : list DockerContainerSnapshot)
    : M DockerSnapshot (list DockerContainerSnapshot) :=
  let* response := call (OpContainerInspect (types.ID container))
                        (client.ContainerInspect cli (types.ID container)) in
  match response with
  | Err err =>
      run emit (Warn err ("failed to retrieve env for container "
                            +:+ types.ID container +:+ ". Skipping.")) then
      ret (containers ++ [ {| Container := container; Env := [] |} ])
  | Ok response =>
      match types.Config response with
      | None => panic nilDereference
      | Some config =>
          ret (containers ++ [ {| Container := container;
                                  Env := types.Env config |} ])
      end
  end.

(** The local variables of [snapshotContainers]. *)
Record ContainerCounters := {
  runningContainers : nat;
  stoppedContainers : nat;
  healthyContainers : nat;
  unhealthyContainers : nat;
  stacks : gset string
}.

Definition incRunning (acc : ContainerCounters) : ContainerCounters :=
  {| runningContainers := S (runningContainers acc);
     stoppedContainers := stoppedContainers acc;
     healthyContainers := healthyContainers acc;
     unhealthyContainers := unhealthyContainers acc;
     stacks := stacks acc |}.

Definition incStopped (acc : ContainerCounters) : ContainerCounters :=
  {| runningContainers := runningContainers acc;
     stoppedContainers := S (stoppedContainers acc);
     healthyContainers := healthyContainers acc;
     unhealthyContainers := unhealthyContainers acc;
     stacks := stacks acc |}.

Definition incHealthy (acc : ContainerCounters) : ContainerCounters :=
  {| runningContainers := runningContainers acc;
     stoppedContainers := stoppedContainers acc;
     healthyContainers := S (healthyContainers acc);
     unhealthyContainers := unhealthyContainers acc;
     stacks := stacks acc |}.

Definition incUnhealthy (acc : ContainerCounters) : ContainerCounters :=
  {| runningContainers := runningContainers acc;
     stoppedContainers := stoppedContainers acc;
     healthyContainers := healthyContainers acc;
     unhealthyContainers := S (unhealthyContainers acc);
     stacks := stacks acc |}.

Definition setStacks (v : gset string) (acc : ContainerCounters) : ContainerCounters :=
  {| runningContainers := runningContainers acc;
     stoppedContainers := stoppedContainers acc;
     healthyContainers := healthyContainers acc;
     unhealthyContainers := unhealthyContainers acc;
     stacks := v |}.

(** Body of the second loop of [snapshotContainers].  The fields [State],
    [Status] and [Labels] are those of the embedded [types.Container]. *)
Definition classifyContainer (acc : ContainerCounters)
    (container : DockerContainerSnapshot) : ContainerCounters :=
  let acc :=
    if decide (types.State (Container container) = "exited") then incStopped acc
    else if decide (types.State (Container container) = "running") then incRunning acc
    else acc in
  let acc :=
    if Contains (types.Status (Container container)) "(healthy)" then incHealthy acc
    else if Contains (types.Status (Container container)) "(unhealthy)" then incUnhealthy acc
    else acc in
  setStacks (rangeLabels "com.docker.compose.project"
                         (types.Labels (Container container)) (stacks acc)) acc.

Definition noCounters : ContainerCounters :=
  {| runningContainers := 0; stoppedContainers := 0; healthyContainers := 0;
     unhealthyContainers := 0; stacks := ∅ |}.

Definition snapshotContainers : Step := fun snapshot cli =>
  (let* r := call OpContainerList (client.ContainerList cli) in
   match r with
   | Err err => ret (Some err)
   | Ok rawContainers =>
       let* containers := forRange (inspectContainer cli) rawContainers [] in
       let acc := fold_left classifyContainer containers noCounters in
       run assign (setRunningContainerCount (runningContainers acc)) then
       run assign (setStoppedContainerCount (stoppedContainers acc)) then
       run assign (setHealthyContainerCount (healthyContainers acc)) then
       run assign (setUnhealthyContainerCount (unhealthyContainers acc)) then
       run assign (fun s => setStackCount (StackCount s + size (stacks acc)) s) then
       run assign (setRawContainers containers) then
       ret None
   end) snapshot.

Definition snapshotImages : Step := fun snapshot cli =>
  (let* r := call OpImageList (client.ImageList cli) in
   match r with
   | Err err => ret (Some err)
   | Ok images =>
       run assign (setImageCount (length images)) then
       run assign (setRawImages images) then
       ret None
   end) snapshot.

Definition snapshotVolumes : Step := fun snapshot cli =>
  (let* r := call OpVolumeList (client.VolumeList cli) in
   match r with
   | Err err => ret (Some err)
   | Ok volumes =>
       run assign (setVolumeCount (length (types.Volumes volumes))) then
       run assign (setRawVolumes volumes) then
       ret None
   end) snapshot.

Definition snapshotNetworks : Step := fun snapshot cli =>
  (let* r := call OpNetworkList (client.NetworkList cli) in
   match r with
   | Err err => ret (Some err)
   | Ok networks =>
       run assign (setRawNetworks networks) then
       ret None
   end) snapshot.

Definition snapshotVersion : Step := fun snapshot cli =>
  (let* r := call OpServerVersion (client.ServerVersion cli) in
   match r with
   | Err err => ret (Some err)
   | Ok version =>
       run assign (setRawVersion (Some version)) then
       ret None
   end) snapshot.

(** ** [CreateSnapshot] *)

(** One step of [CreateSnapshot]: call it on the shared snapshot and log a
    warning when it reports an error; the error goes no further. *)
Definition step (f : Step) (msg : string) (cli : client.Client) : M DockerSnapshot unit :=
  let* err := (fun snapshot => f snapshot cli) in
  warnOnError err msg.

(** The block guarded by [if snapshot.Swarm]. *)
Definition swarmSteps (cli : client.Client) : M DockerSnapshot unit :=
  let* snapshot := get in
  if Swarm snapshot then
    run step snapshotSwarmServices "unable to snapshot Swarm services" cli then
    step snapshotNodes "unable to snapshot Swarm nodes" cli
  else ret tt.

(** Everything after the liveness check, from the allocation of the
    snapshot to the time stamp. *)
Definition collect (cli : client.Client) (now : Z) : M DockerSnapshot unit :=
  run assign (fun _ => setStackCount 0 zero) then
  run step snapshotInfo "unable to snapshot engine information" cli then
  run swarmSteps cli then
  run step snapshotContainers "unable to snapshot containers" cli then
  run step snapshotImages "unable to snapshot images" cli then
  run step snapshotVolumes "unable to snapshot volumes" cli then
  run step snapshotNetworks "unable to snapshot networks" cli then
  run step snapshotVersion "unable to snapshot engine version" cli then
  assign (setTime now).

(** A call of [CreateSnapshot] returns the pair of a snapshot pointer and
    an [error] ([None] is [nil] in either position), or panics.
    [defer cli.Close()] runs on every way out once the client exists, a
    panic included.  The struct the monad starts from stands for memory
    not yet allocated; [collect] begins by allocating it. *)
Definition CreateSnapshot (host : Host)
    : outcome (option DockerSnapshot * option error) * list Event :=
  match NewClientWithOpts host with
  | Err err => (Returned (None, Some err), [])
  | Ok cli =>
      let r :=
        (let* pong := call OpPing (client.Ping cli) in
         match pong with
         | Err err => ret (None, Some err)
         | Ok _ =>
             run collect cli (Now host) then
             let* snapshot := get in
             ret (Some snapshot, None)
         end) zero in
      (r.1.2, r.2 ++ [Close])
  end.

(** ** Reference notions used by the statements *)

(** What a step leaves in the struct, whether it returned or panicked. *)
Definition after (f : Step) (cli : client.Client) (snapshot : DockerSnapshot)
    : DockerSnapshot :=
  (f snapshot cli).1.1.

Definition called (op : ApiOp) (trace : list Event) : Prop := ApiCall op ∈ trace.

Definition count {A} (p : A -> bool) (l : list A) : nat := length (List.filter p l).

Definition isRunning (c : types.Container) : bool :=
  bool_decide (types.State c = "running").
Definition isExited (c : types.Container) : bool :=
  bool_decide (types.State c = "exited").
Definition saysHealthy (c : types.Container) : bool :=
  Contains (types.Status c) "(healthy)".
Definition saysUnhealthy (c : types.Container) : bool :=
  Contains (types.Status c) "(unhealthy)".

(** The values a label takes over a list of labelled objects, and the
    number of distinct strings in a list. *)
Definition labelValues {A} (labels : A -> gmap string string) (key : string)
    (l : list A) : list string :=
  omap (fun x => labels x !! key) l.

Definition distinct (l : list string) : nat := length (remove_dups l).

(** Whether the inspection of a container can be used: it failed, or it
    answered with a configuration. *)
Definition carriesConfig (cli : client.Client) (c : types.Container) : bool :=
  match client.ContainerInspect cli (types.ID c) with
  | Ok response => bool_decide (types.Config response <> None)
  | Err _ => true
  end.

(** The same of every container of a list, as a proposition about the
    engine's answers. *)
Definition configsPresent (cli : client.Client) (rawContainers : list types.Container)
    : Prop :=
  Forall (fun c => forall response,
            client.ContainerInspect cli (types.ID c) = Ok response ->
            types.Config response <> None) rawContainers.

(** Whether the run meets an answered inspection without configuration. *)
Definition panics (cli : client.Client) : bool :=
  match client.ContainerList cli with
  | Ok rawContainers => negb (forallb (carriesConfig cli) rawContainers)
  | Err _ => false
  end.

(** A raw container paired with the environment its inspection yields:
    that of the answer's configuration, none when the inspection failed. *)
Definition inspected (cli : client.Client) (c : types.Container) : DockerContainerSnapshot :=
  {| Container := c;
     Env := match client.ContainerInspect cli (types.ID c) with
            | Ok response =>
                match types.Config response with
                | Some config => types.Env config
                | None => []
                end
            | Err _ => []
            end |}.


(** Mathematical (unbounded) sums of the node resources. *)
Definition sumNanoCPUs (nodes : list swarm.Node) : Z :=
  foldr (fun node acc => (swarm.NanoCPUs (swarm.Resources_ (swarm.Description node)) + acc)%Z)
        0%Z nodes.
Definition sumMemoryBytes (nodes : list swarm.Node) : Z :=
  foldr (fun node acc => (swarm.MemoryBytes (swarm.Resources_ (swarm.Description node)) + acc)%Z)
        0%Z nodes.

Definition int64 (z : Z) : Prop := (- 2 ^ 63 <= z < 2 ^ 63)%Z.

(** What the container step writes when the list call answers. *)
Definition withContainers (cli : client.Client) (rawContainers : list types.Container)
    (snapshot : DockerSnapshot) : DockerSnapshot :=
  setRawContainers (map (inspected cli) rawContainers)
    (setStackCount
       (StackCount snapshot
        + distinct (labelValues types.Labels "com.docker.compose.project" rawContainers))
       (setUnhealthyContainerCount
          (count (fun c => negb (saysHealthy c) && saysUnhealthy c) rawContainers)
          (setHealthyContainerCount (count saysHealthy rawContainers)
             (setStoppedContainerCount (count isExited rawContainers)
                (setRunningContainerCount (count isRunning rawContainers) snapshot))))).

(** The engine calls of a trace, in order. *)
Definition calls (trace : list Event) : list ApiOp :=
  omap (fun e => match e with ApiCall op => Some op | _ => None end) trace.


(** Connection setup: client construction, then the ping. *)
Definition setupFails (host : Host) : Prop :=
  match NewClientWithOpts host with
  | Err _ => True
  | Ok cli => is_ok (client.Ping cli) = false
  end.

(** Every call made after the ping fails (with engine info failing, the
    services and the nodes are not asked for). *)
Definition everyListingFails (cli : client.Client) : Prop :=
  is_ok (client.Info cli) = false
  /\ is_ok (client.ContainerList cli) = false
  /\ is_ok (client.ImageList cli) = false
  /\ is_ok (client.VolumeList cli) = false
  /\ is_ok (client.NetworkList cli) = false
  /\ is_ok (client.ServerVersion cli) = false.

(** ** Concrete engines for the worked examples *)

Module Examples.
Definition refused : error := "connection refused".

Definition container (id state status : string) (labels : list (string * string))
    : types.Container :=
  {| types.ID := id; types.Image := "busybox"; types.State := state;
     types.Status := status; types.Labels := list_to_map labels |}.

Definition info (manager : bool) : types.Info :=
  {| types.ServerVersion := "24.0.7"; types.NCPU := 4;
     types.MemTotal := 8000000000;
     types.Swarm := {| swarm.NodeID := "n1"; swarm.ControlAvailable := manager |} |}.

Definition node (id : string) (nanoCPUs memoryBytes : Z) : swarm.Node :=
  {| swarm.ID := id;
     swarm.Description :=
       {| swarm.Hostname := id;
          swarm.Resources_ := {| swarm.NanoCPUs := nanoCPUs;
                                 swarm.MemoryBytes := memoryBytes |} |} |}.

Definition service (id : string) (labels : list (string * string)) : swarm.Service :=
  {| swarm.ServiceID := id;
     swarm.Spec := {| swarm.Name := id; swarm.Labels := list_to_map labels |} |}.

(** An engine that answers the ping and the given calls; images, volumes,
    networks and version are unavailable. *)
Definition engine (info : result types.Info)
    (services : result (list swarm.Service)) (nodes : result (list swarm.Node))
    (containers : result (list types.Container))
    (inspect : string -> result types.ContainerJSON) : client.Client :=
  {| client.Ping := Ok tt;
     client.Info := info;
     client.ServiceList := services;
     client.NodeList := nodes;
     client.ContainerList := containers;
     client.ContainerInspect := inspect;
     client.ImageList := Err refused;
     client.VolumeList := Err refused;
     client.NetworkList := Err refused;
     client.ServerVersion := Err refused |}.

Definition noInspect (id : string) : result types.ContainerJSON := Err refused.

Definition inspectOnly (known : string) (env : list string) (id : string)
    : result types.ContainerJSON :=
  if decide (id = known)
  then Ok {| types.Config := Some {| types.Env := env |} |}
  else Err refused.

(** Reachable, but nothing can be listed. *)
Definition mute : client.Client :=
  engine (Err refused) (Err refused) (Err refused) (Err refused) noInspect.

Definition hostOf (cli : client.Client) : Host :=
  {| NewClientWithOpts := Ok cli; Now := 1700000000 |}.

(** Five containers: three running, one of them healthy, two exited. *)
Definition five : list types.Container :=
  [ container "c1" "running" "Up 2 hours (healthy)" [("com.docker.compose.project", "shop")];
    container "c2" "running" "Up 2 hours" [("com.docker.compose.project", "shop")];
    container "c3" "running" "Up 5 minutes" [];
    container "c4" "exited" "Exited (0) 3 days ago" [("com.docker.compose.project", "blog")];
    container "c5" "exited" "Exited (137) 1 hour ago" [] ].

(** A status text carrying both health markers. *)
Definition bothMarkers : types.Container :=
  container "c6" "running" "Up 1 minute (healthy) (unhealthy)" [].

Definition paused : types.Container :=
  container "c7" "paused" "Up 3 hours (Paused)" [].

(** Three services, two of them in the stack [shop]. *)
Definition services : list swarm.Service :=
  [ service "s1" [("com.docker.stack.namespace", "shop")];
    service "s2" [("com.docker.stack.namespace", "shop")];
    service "s3" [] ].

(** Two nodes whose nano-CPU values add up to [2^63]. *)
Definition hugeNodes : list swarm.Node :=
  [ node "n1" (2 ^ 62) 4000000000; node "n2" (2 ^ 62) 4000000000 ].

(** Three ordinary nodes: 2, 4 and 1.5 CPUs. *)
Definition nodes : list swarm.Node :=
  [ node "n1" 2000000000 4000000000; node "n2" 4000000000 8000000000;
    node "n3" 1500000000 2000000000 ].

(** A swarm manager that lists the given nodes and nothing else. *)
Definition cluster (l : list swarm.Node) : client.Client :=
  engine (Ok (info true)) (Err refused) (Ok l) (Err refused) noInspect.

(** A swarm manager running [services] and [five]; its node list is
    unavailable. *)
Definition manager : client.Client :=
  engine (Ok (info true)) (Ok services) (Err refused) (Ok five)
         (inspectOnly "c1" ["PATH=/bin"]).
End Examples.

(** ** What a run is expected to leave in the trace *)

(** Whether engine info answered and reported swarm control. *)
Definition manager (cli : client.Client) : bool :=
  match client.Info cli with
  | Ok info => swarm.ControlAvailable (types.Swarm info)
  | Err _ => false
  end.

(** The list an engine call delivered; nothing when it failed. *)
Definition answer {A} (r : result (list A)) : list A :=
  match r with
  | Ok l => l
  | Err _ => []
  end.

(** The services and nodes the collector gets to see: none unless the
    swarm block runs. *)
Definition servicesSeen (cli : client.Client) : list swarm.Service :=
  if manager cli then answer (client.ServiceList cli) else [].

Definition nodesSeen (cli : client.Client) : option (list swarm.Node) :=
  if manager cli
  then match client.NodeList cli with Ok nodes => Some nodes | Err _ => None end
  else None.

(** One orchestrated step in the trace: the call, then a warning if it
    failed. *)
Definition stepTrace {A} (op : ApiOp) (r : result A) (msg : string) : list Event :=
  ApiCall op :: match r with Err err => [Warn err msg] | Ok _ => [] end.

Definition inspectTrace (cli : client.Client) (c : types.Container) : list Event :=
  ApiCall (OpContainerInspect (types.ID c)) ::
  match client.ContainerInspect cli (types.ID c) with
  | Err err => [Warn err ("failed to retrieve env for container "
                            +:+ types.ID c +:+ ". Skipping.")]
  | Ok _ => []
  end.

(** The inspections of a list of containers: they stop after the first
    answer without configuration. *)
Fixpoint inspectionsTrace (cli : client.Client) (l : list types.Container) : list Event :=
  match l with
  | [] => []
  | c :: l' =>
      inspectTrace cli c
      ++ (if carriesConfig cli c then inspectionsTrace cli l' else [])
  end.

Definition containerTrace (cli : client.Client) : list Event :=
  ApiCall OpContainerList ::
  match client.ContainerList cli with
  | Ok rawContainers => inspectionsTrace cli rawContainers
  | Err err => [Warn err "unable to snapshot containers"]
  end.

(** The steps after the container step. *)
Definition tailTrace (cli : client.Client) : list Event :=
  stepTrace OpImageList (client.ImageList cli) "unable to snapshot images"
  ++ stepTrace OpVolumeList (client.VolumeList cli) "unable to snapshot volumes"
  ++ stepTrace OpNetworkList (client.NetworkList cli) "unable to snapshot networks"
  ++ stepTrace OpServerVersion (client.ServerVersion cli)
               "unable to snapshot engine version".

Definition collectTrace (cli : client.Client) : list Event :=
  stepTrace OpInfo (client.Info cli) "unable to snapshot engine information"
  ++ (if manager cli
      then stepTrace OpServiceList (client.ServiceList cli)
                     "unable to snapshot Swarm services"
           ++ stepTrace OpNodeList (client.NodeList cli)
                        "unable to snapshot Swarm nodes"
      else [])
  ++ containerTrace cli
  ++ (if panics cli then [] else tailTrace cli).

(** The snapshot written out field by field from the engine's answers. *)
Definition expectedRaw (cli : client.Client) : DockerSnapshotRaw :=
  {| Containers := map (inspected cli) (answer (client.ContainerList cli));
     Volumes := match client.VolumeList cli with
                | Ok volumes => volumes
                | Err _ => types.Build_VolumeListOKBody [] []
                end;
     Networks := answer (client.NetworkList cli);
     Images := answer (client.ImageList cli);
     Info := match client.Info cli with Ok info => Some info | Err _ => None end;
     Version := match client.ServerVersion cli with
                | Ok version => Some version
                | Err _ => None
                end |}.

Definition expectedSnapshot (cli : client.Client) (now : Z) : DockerSnapshot :=
  {| Time := now;
     DockerVersion := match client.Info cli with
                      | Ok info => types.ServerVersion info
                      | Err _ => ""
                      end;
     Swarm := manager cli;
     TotalCPU := match nodesSeen cli, client.Info cli with
                 | Some nodes, _ => (wrap64 (sumNanoCPUs nodes) ÷ 10 ^ 9)%Z
                 | None, Ok info => types.NCPU info
                 | None, Err _ => 0%Z
                 end;
     TotalMemory := match nodesSeen cli, client.Info cli with
                    | Some nodes, _ => wrap64 (sumMemoryBytes nodes)
                    | None, Ok info => types.MemTotal info
                    | None, Err _ => 0%Z
                    end;
     RunningContainerCount := count isRunning (answer (client.ContainerList cli));
     StoppedContainerCount := count isExited (answer (client.ContainerList cli));
     HealthyContainerCount := count saysHealthy (answer (client.ContainerList cli));
     UnhealthyContainerCount :=
       count (fun c => negb (saysHealthy c) && saysUnhealthy c)
             (answer (client.ContainerList cli));
     VolumeCount := match client.VolumeList cli with
                    | Ok volumes => length (types.Volumes volumes)
                    | Err _ => 0
                    end;
     ImageCount := length (answer (client.ImageList cli));
     ServiceCount := length (servicesSeen cli);
     StackCount :=
       distinct (labelValues (fun s => swarm.Labels (swarm.Spec s))
                             "com.docker.stack.namespace" (servicesSeen cli))
       + distinct (labelValues types.Labels "com.docker.compose.project"
                               (answer (client.ContainerList cli)));
     NodeCount := match nodesSeen cli with Some nodes => length nodes | None => 0 end;
     SnapshotRaw := expectedRaw cli |}.

(** The warnings of a trace, in order. *)
Definition warnings (trace : list Event) : list (error * string) :=
  omap (fun e => match e with Warn err msg => Some (err, msg) | _ => None end) trace.

(** Every call the collector makes after the ping is answered. *)
Definition everyCallAnswered (cli : client.Client) : Prop :=
  is_ok (client.Info cli) = true
  /\ (manager cli = true ->
      is_ok (client.ServiceList cli) = true /\ is_ok (client.NodeList cli) = true)
  /\ is_ok (client.ContainerList cli) = true
  /\ Forall (fun c => is_ok (client.ContainerInspect cli (types.ID c)) = true)
            (answer (client.ContainerList cli))
  /\ is_ok (client.ImageList cli) = true
  /\ is_ok (client.VolumeList cli) = true
  /\ is_ok (client.NetworkList cli) = true
  /\ is_ok (client.ServerVersion cli) = true.

(** The eight collection steps. *)
Definition steps : list Step :=
  [ snapshotInfo; snapshotSwarmServices; snapshotNodes; snapshotContainers;
    snapshotImages; snapshotVolumes; snapshotNetworks; snapshotVersion ].

(** A healthy engine for the worked examples: everything answers. *)
Module Healthy.
Definition images : list types.ImageSummary :=
  [ {| types.ImageID := "sha256:aa"; types.Size := 5000000 |};
    {| types.ImageID := "sha256:bb"; types.Size := 7000000 |} ].

Definition volumes : types.VolumeListOKBody :=
  {| types.Volumes := [ {| types.VolumeName := "data"; types.Driver := "local" |} ];
     types.Warnings := [] |}.

Definition networks : list types.NetworkResource :=
  [ {| types.NetworkID := "n0"; types.NetworkName := "bridge" |} ].

Definition version : types.Version :=
  {| types.Version_ := "24.0.7"; types.APIVersion := "1.43" |}.

Definition inspectAll (id : string) : result types.ContainerJSON :=
  Ok {| types.Config := Some {| types.Env := ["HOME=/root"; "ID=" +:+ id] |} |}.

(** A stand-alone engine (no swarm) running the five example containers. *)
Definition standalone : client.Client :=
  {| client.Ping := Ok tt;
     client.Info := Ok (Examples.info false);
     client.ServiceList := Err "This node is not a swarm manager";
     client.NodeList := Err "This node is not a swarm manager";
     client.ContainerList := Ok Examples.five;
     client.ContainerInspect := inspectAll;
     client.ImageList := Ok images;
     client.VolumeList := Ok volumes;
     client.NetworkList := Ok networks;
     client.ServerVersion := Ok version |}.

(** A swarm manager on which everything answers. *)
Definition swarmManager : client.Client :=
  {| client.Ping := Ok tt;
     client.Info := Ok (Examples.info true);
     client.ServiceList := Ok Examples.services;
     client.NodeList := Ok Examples.nodes;
     client.ContainerList := Ok Examples.five;
     client.ContainerInspect := inspectAll;
     client.ImageList := Ok images;
     client.VolumeList := Ok volumes;
     client.NetworkList := Ok networks;
     client.ServerVersion := Ok version |}.

(** An engine that lists the given containers and answers nothing else. *)
Definition listing (rawContainers : list types.Container) : client.Client :=
  Examples.engine (Err Examples.refused) (Err Examples.refused) (Err Examples.refused)
                  (Ok rawContainers) Examples.noInspect.

(** The five example containers under other identifiers and with further
    labels. *)
Definition relabelled : list types.Container :=
  [ Examples.container "x1" "running" "Up 2 hours (healthy)"
      [("com.docker.compose.project", "shop"); ("tier", "web")];
    Examples.container "x2" "running" "Up 2 hours"
      [("com.docker.compose.project", "shop")];
    Examples.container "x3" "running" "Up 5 minutes" [("maintainer", "ops")];
    Examples.container "x4" "exited" "Exited (0) 3 days ago"
      [("com.docker.compose.project", "blog")];
    Examples.container "x5" "exited" "Exited (137) 1 hour ago" [] ].

(** Three nodes whose running nano-CPU sum passes [2^63] in one order. *)
Definition wrappingNodes : list swarm.Node :=
  [ Examples.node "a" (2 ^ 62) 1; Examples.node "b" (2 ^ 62) 2;
    Examples.node "c" (- 2 ^ 62) 3 ].

Definition rotatedNodes : list swarm.Node :=
  [ Examples.node "c" (- 2 ^ 62) 3; Examples.node "a" (2 ^ 62) 1;
    Examples.node "b" (2 ^ 62) 2 ].

(** An inspection that answers, without configuration, for one container
    and with one for the others. *)
Definition inspectWithout (known : string) (id : string) : result types.ContainerJSON :=
  if decide (id = known) then Ok {| types.Config := None |} else inspectAll id.

(** The stand-alone engine, answering the inspection of [c3] without
    configuration. *)
Definition broken : client.Client :=
  {| client.Ping := Ok tt;
     client.Info := Ok (Examples.info false);
     client.ServiceList := Err "This node is not a swarm manager";
     client.NodeList := Err "This node is not a swarm manager";
     client.ContainerList := Ok Examples.five;
     client.ContainerInspect := inspectWithout "c3";
     client.ImageList := Ok images;
     client.VolumeList := Ok volumes;
     client.NetworkList := Ok networks;
     client.ServerVersion := Ok version |}.

(** An engine that is up but does not answer the ping. *)
Definition unreachable : client.Client :=
  {| client.Ping := Err "Cannot connect to the Docker daemon";
     client.Info := Ok (Examples.info true);
     client.ServiceList := Ok Examples.services;
     client.NodeList := Ok Examples.nodes;
     client.ContainerList := Ok Examples.five;
     client.ContainerInspect := inspectAll;
     client.ImageList := Ok images;
     client.VolumeList := Ok volumes;
     client.NetworkList := Ok networks;
     client.ServerVersion := Ok version |}.
End Healthy.


(** ** Labels and stacks *)

(** Ranging over a label map for one key is a lookup: at most one entry
    has that key, so the order of the visit plays no part. *)
Lemma rangeLabels_lookup (key : string) (labels : gmap string string) (acc : gset string) :
  rangeLabels key labels acc =
  match labels !! key with
  | Some v => {[ v ]} ∪ acc
  | None => acc
  end.
Proof.
  unfold rangeLabels.
  apply (map_fold_weak_ind
           (fun r (m : gmap string string) =>
              r = match m !! key with Some v => {[ v ]} ∪ acc | None => acc end)).
  - by rewrite lookup_empty.
  - intros i x m r Hi ->. destruct (decide (i = key)) as [-> | Hne].
    + by rewrite Hi, lookup_insert_eq.
    + by rewrite lookup_insert_ne.
Qed.

Lemma fold_rangeLabels {A} (labels : A -> gmap string string) (key : string)
    (l : list A) (acc : gset string) :
  fold_left (fun stacks x => rangeLabels key (labels x) stacks) l acc =
  acc ∪ list_to_set (labelValues labels key l).
Proof.
  revert acc. induction l as [| x l IH]; intros acc; simpl.
  - by rewrite union_empty_r_L.
  - rewrite IH, rangeLabels_lookup. unfold labelValues. simpl.
    destruct (labels x !! key) as [v |]; simpl; [| done].
    by rewrite (union_comm_L {[ v ]} acc), <- union_assoc_L.
Qed.

Lemma size_list_to_set_distinct (l : list string) :
  size (list_to_set l : gset string) = distinct l.
Proof.
  unfold distinct.
  rewrite <- (size_list_to_set (C := gset string) (remove_dups l))
    by apply NoDup_remove_dups.
  f_equal. apply set_eq. intros x.
  by rewrite !elem_of_list_to_set, elem_of_remove_dups.
Qed.

Lemma serviceStacks_size (services : list swarm.Service) :
  size (serviceStacks services) =
  distinct (labelValues (fun s => swarm.Labels (swarm.Spec s))
                        "com.docker.stack.namespace" services).
Proof.
  unfold serviceStacks.
  rewrite (fold_rangeLabels (fun s => swarm.Labels (swarm.Spec s))).
  rewrite union_empty_l_L. apply size_list_to_set_distinct.
Qed.

(** ** Counting facts *)

Lemma count_cons {A} (p : A -> bool) x l :
  count p (x :: l) = (if p x then 1 else 0) + count p l.
Proof. unfold count. simpl. by destruct (p x). Qed.

Lemma count_le_length {A} (p : A -> bool) l : count p l <= length l.
Proof. apply List.filter_length_le. Qed.

Lemma count_map {A B} (f : A -> B) (p : B -> bool) l :
  count p (map f l) = count (fun x => p (f x)) l.
Proof.
  induction l as [| x l IH]; [done |].
  cbn [map]. by rewrite !count_cons, IH.
Qed.

Lemma count_disjoint {A} (p q : A -> bool) l :
  (forall x, p x = true -> q x = false) ->
  count p l + count q l = count (fun x => p x || q x) l.
Proof.
  intros Hpq. induction l as [| x l IH]; [done |].
  rewrite !count_cons, <- IH. specialize (Hpq x).
  destruct (p x), (q x); simpl; try lia; by specialize (Hpq eq_refl).
Qed.

Lemma count_all {A} (p : A -> bool) l :
  count p l = length l <-> Forall (fun x => p x = true) l.
Proof.
  induction l as [| x l IH].
  - split; [constructor | done].
  - rewrite count_cons, Forall_cons. cbn [length].
    pose proof (count_le_length p l). destruct (p x); split.
    + intros H'. split; [done | apply IH; lia].
    + intros [_ H']. apply IH in H'. lia.
    + lia.
    + by intros [? _].
Qed.

Lemma count_le {A} (p q : A -> bool) l :
  (forall x, p x = true -> q x = true) -> count p l <= count q l.
Proof.
  intros Hpq. induction l as [| x l IH]; [done |].
  rewrite !count_cons. specialize (Hpq x).
  destruct (p x), (q x); simpl; try lia; by specialize (Hpq eq_refl).
Qed.

Lemma running_not_exited c : isRunning c = true -> isExited c = false.
Proof.
  unfold isRunning, isExited. intros H%bool_decide_eq_true.
  apply bool_decide_eq_false. by rewrite H.
Qed.

Lemma running_or_exited c :
  isRunning c || isExited c = true <->
  types.State c = "running" \/ types.State c = "exited".
Proof.
  unfold isRunning, isExited.
  rewrite orb_true_iff, !bool_decide_eq_true. done.
Qed.

Lemma count_Permutation {A} (p : A -> bool) l1 l2 :
  l1 ≡ₚ l2 -> count p l1 = count p l2.
Proof.
  induction 1 as [| x l1 l2 _ IH | x y l | l1 l2 l3 _ IH1 _ IH2].
  - done.
  - by rewrite !count_cons, IH.
  - rewrite !count_cons. lia.
  - by rewrite IH1.
Qed.

Lemma count_Forall2 {A} (p : A -> bool) l1 l2 :
  Forall2 (fun x y => p x = p y) l1 l2 -> count p l1 = count p l2.
Proof.
  induction 1 as [| x y l1 l2 Hxy _ IH]; [done |].
  by rewrite !count_cons, Hxy, IH.
Qed.

(** ** The second loop of the container step *)

(** Closed form of the second loop: every counter is a count over the
    raw containers, whatever the environments are. *)
Lemma classify_fold (containers : list DockerContainerSnapshot) (acc : ContainerCounters) :
  let raw := map Container containers in
  let r := fold_left classifyContainer containers acc in
  runningContainers r = runningContainers acc + count isRunning raw
  /\ stoppedContainers r = stoppedContainers acc + count isExited raw
  /\ healthyContainers r = healthyContainers acc + count saysHealthy raw
  /\ unhealthyContainers r =
     unhealthyContainers acc
     + count (fun c => negb (saysHealthy c) && saysUnhealthy c) raw
  /\ stacks r =
     stacks acc ∪ list_to_set (labelValues types.Labels "com.docker.compose.project" raw).
Proof.
  revert acc. induction containers as [| c l IH]; intros acc; simpl.
  - unfold count. simpl. rewrite union_empty_r_L. repeat split; lia.
  - specialize (IH (classifyContainer acc c)). simpl in IH.
    destruct IH as (Hr & Hs & Hh & Hu & Hst).
    rewrite Hr, Hs, Hh, Hu, Hst, !count_cons. clear Hr Hs Hh Hu Hst.
    unfold classifyContainer, isRunning, isExited, saysHealthy, saysUnhealthy,
      labelValues.
    simpl. rewrite rangeLabels_lookup.
    destruct (decide (types.State (Container c) = "exited")) as [He | He];
      destruct (decide (types.State (Container c) = "running")) as [Hr | Hr];
      destruct (Contains (types.Status (Container c)) "(healthy)");
      destruct (Contains (types.Status (Container c)) "(unhealthy)");
      repeat case_bool_decide; try congruence; simpl;
      (split_and !; [lia | lia | lia | lia |]);
      (destruct (types.Labels (Container c) !! "com.docker.compose.project") as [v |];
       simpl; [| done]);
      by rewrite (union_comm_L {[ v ]} (stacks acc)), <- union_assoc_L.
Qed.

Lemma map_Container_inspected cli rawContainers :
  map Container (map (inspected cli) rawContainers) = rawContainers.
Proof. induction rawContainers as [| c l IH]; simpl; [done | by rewrite IH]. Qed.

(** One turn of the loop, state side. *)
Lemma classifyContainer_state acc c :
  let r := classifyContainer acc c in
  (types.State (Container c) = "exited" ->
     stoppedContainers r = S (stoppedContainers acc)
     /\ runningContainers r = runningContainers acc)
  /\ (types.State (Container c) = "running" ->
     runningContainers r = S (runningContainers acc)
     /\ stoppedContainers r = stoppedContainers acc)
  /\ (types.State (Container c) <> "exited" ->
      types.State (Container c) <> "running" ->
     runningContainers r = runningContainers acc
     /\ stoppedContainers r = stoppedContainers acc).
Proof.
  cbv zeta. unfold classifyContainer.
  destruct (decide (types.State (Container c) = "exited")) as [He | He];
    destruct (decide (types.State (Container c) = "running")) as [Hr | Hr];
    destruct (Contains (types.Status (Container c)) "(healthy)");
    destruct (Contains (types.Status (Container c)) "(unhealthy)");
    simpl; split_and !; intros; try done; congruence.
Qed.

(** One turn of the loop, health side. *)
Lemma classifyContainer_health acc c :
  let r := classifyContainer acc c in
  (saysHealthy (Container c) = true ->
     healthyContainers r = S (healthyContainers acc)
     /\ unhealthyContainers r = unhealthyContainers acc)
  /\ (saysHealthy (Container c) = false -> saysUnhealthy (Container c) = true ->
     unhealthyContainers r = S (unhealthyContainers acc)
     /\ healthyContainers r = healthyContainers acc)
  /\ (saysHealthy (Container c) = false -> saysUnhealthy (Container c) = false ->
     healthyContainers r = healthyContainers acc
     /\ unhealthyContainers r = unhealthyContainers acc).
Proof.
  cbv zeta. unfold classifyContainer, saysHealthy, saysUnhealthy.
  destruct (decide (types.State (Container c) = "exited")) as [He | He];
    destruct (decide (types.State (Container c) = "running")) as [Hr | Hr];
    destruct (Contains (types.Status (Container c)) "(healthy)");
    destruct (Contains (types.Status (Container c)) "(unhealthy)");
    simpl; split_and !; intros; done.
Qed.

Lemma classifyContainer_ignores_env acc c env :
  classifyContainer acc {| Container := c; Env := env |}
  = classifyContainer acc {| Container := c; Env := [] |}.
Proof. reflexivity. Qed.

(** ** Node sums *)

Lemma wrap64_id z : int64 z -> wrap64 z = z.
Proof.
  unfold int64, wrap64. intros H.
  rewrite Z.mod_small by lia. lia.
Qed.

Lemma wrap64_add_l a b : wrap64 (wrap64 a + b) = wrap64 (a + b).
Proof.
  unfold wrap64.
  replace ((a + 2 ^ 63) mod 2 ^ 64 - 2 ^ 63 + b + 2 ^ 63)%Z
    with ((a + 2 ^ 63) mod 2 ^ 64 + b)%Z by lia.
  rewrite Zplus_mod_idemp_l. f_equal. f_equal. lia.
Qed.

Lemma wrap64_range z : int64 (wrap64 z).
Proof.
  unfold int64, wrap64.
  pose proof (Z.mod_pos_bound (z + 2 ^ 63) (2 ^ 64) ltac:(lia)). lia.
Qed.

(** The loop adds modulo [2^64]: whatever happens on the way, it ends on
    the wrapped mathematical sums. *)
Lemma sumNodes_wrap (nodes : list swarm.Node) :
  sumNodes nodes = (wrap64 (sumNanoCPUs nodes), wrap64 (sumMemoryBytes nodes)).
Proof.
  unfold sumNodes.
  assert (G : forall l a b,
    fold_left
      (fun acc node =>
         (add64 acc.1 (swarm.NanoCPUs (swarm.Resources_ (swarm.Description node))),
          add64 acc.2 (swarm.MemoryBytes (swarm.Resources_ (swarm.Description node)))))
      l (wrap64 a, wrap64 b)
    = (wrap64 (a + sumNanoCPUs l), wrap64 (b + sumMemoryBytes l))).
  { induction l as [| n l IH]; intros a b; simpl.
    - by rewrite !Z.add_0_r.
    - unfold add64. rewrite !wrap64_add_l, IH. f_equal; f_equal; lia. }
  specialize (G nodes 0%Z 0%Z). rewrite !Z.add_0_l in G.
  rewrite <- G. reflexivity.
Qed.

Lemma quo64_billion a : int64 a -> quo64 a (10 ^ 9) = (a ÷ 10 ^ 9)%Z.
Proof.
  intros Ha. unfold quo64. apply wrap64_id. unfold int64 in *.
  destruct (Z.le_gt_cases 0 a) as [Hpos | Hneg].
  - rewrite Z.quot_div_nonneg by lia.
    pose proof (Z.div_pos a (10 ^ 9) Hpos ltac:(lia)).
    pose proof (Z.div_le_upper_bound a (10 ^ 9) (2 ^ 63) ltac:(lia) ltac:(lia)).
    pose proof (Z.div_lt_upper_bound a (10 ^ 9) (2 ^ 63) ltac:(lia) ltac:(lia)).
    lia.
  - replace a with (- - a)%Z by lia. rewrite Z.quot_opp_l by lia.
    rewrite Z.quot_div_nonneg by lia.
    pose proof (Z.div_pos (- a) (10 ^ 9) ltac:(lia) ltac:(lia)).
    pose proof (Z.div_lt_upper_bound (- a) (10 ^ 9) (2 ^ 63) ltac:(lia) ltac:(lia)).
    lia.
Qed.

Lemma sumNanoCPUs_Permutation l1 l2 : l1 ≡ₚ l2 -> sumNanoCPUs l1 = sumNanoCPUs l2.
Proof.
  induction 1 as [| x l1 l2 _ IH | x y l | l1 l2 l3 _ IH1 _ IH2];
    unfold sumNanoCPUs in *; simpl; [done | lia | lia | congruence].
Qed.

Lemma sumMemoryBytes_Permutation l1 l2 :
  l1 ≡ₚ l2 -> sumMemoryBytes l1 = sumMemoryBytes l2.
Proof.
  induction 1 as [| x l1 l2 _ IH | x y l | l1 l2 l3 _ IH1 _ IH2];
    unfold sumMemoryBytes in *; simpl; [done | lia | lia | congruence].
Qed.

(** ** Distinct label values *)

Lemma distinct_le_length l : distinct l <= length l.
Proof.
  unfold distinct. induction l as [| x l IH]; [done |].
  cbn [remove_dups length]. destruct (decide_rel elem_of x l); cbn [length]; lia.
Qed.

Lemma labelValues_length {A} (labels : A -> gmap string string) key l :
  length (labelValues labels key l) <= length l.
Proof.
  unfold labelValues. induction l as [| x l IH]; [done |].
  unfold omap in IH. simpl. destruct (labels x !! key); simpl; lia.
Qed.

Lemma labelValues_none {A} (labels : A -> gmap string string) key l :
  Forall (fun x => labels x !! key = None) l -> labelValues labels key l = [].
Proof.
  unfold labelValues. induction 1 as [| x l Hx _ IH]; [done |].
  simpl. unfold omap in IH. by rewrite Hx, IH.
Qed.

Lemma distinct_same_elements l1 l2 :
  (forall x, x ∈ l1 <-> x ∈ l2) -> distinct l1 = distinct l2.
Proof.
  intros H. rewrite <- !size_list_to_set_distinct. f_equal.
  apply set_eq. intros x. by rewrite !elem_of_list_to_set.
Qed.

Lemma distinct_labels_Permutation {A} (labels : A -> gmap string string) key l1 l2 :
  l1 ≡ₚ l2 -> distinct (labelValues labels key l1) = distinct (labelValues labels key l2).
Proof.
  intros H. apply distinct_same_elements. intros x.
  unfold labelValues. by rewrite H.
Qed.

(** ** Substring tests *)

Lemma HasPrefix_iff s p : HasPrefix s p = true <-> exists post, s = p +:+ post.
Proof.
  revert s. induction p as [| a p IH]; intros s.
  - destruct s; simpl; (split; [intros _; by eexists | done]).
  - destruct s as [| b s]; simpl.
    + split; [done | intros (post & H); discriminate].
    + destruct (decide (a = b)) as [-> | Hne].
      * rewrite IH. split.
        -- intros (post & ->). by exists post.
        -- intros (post & H). injection H as ->. by exists post.
      * split; [done |]. intros (post & H). by injection H as <- _.
Qed.

(** ** Running a computation *)

Section Monad.
Context {S A B : Type}.

Lemma bind_run (m : M S A) (f : A -> M S B) s s' a t :
  m s = ((s', Returned a), t) ->
  bind m f s = ((f a s').1, t ++ (f a s').2).
Proof. intros H. unfold bind. by rewrite H. Qed.

Lemma bind_panic (m : M S A) (f : A -> M S B) s s' reason t :
  m s = ((s', Panicked reason), t) ->
  bind m f s = ((s', Panicked reason), t).
Proof. intros H. unfold bind. by rewrite H. Qed.

Lemma call_run (op : ApiOp) (r : result A) (s : S) :
  call op r s = ((s, Returned r), [ApiCall op]).
Proof. reflexivity. Qed.
End Monad.

(** One rewriting step through a [bind] whose first part returns. *)
Ltac run_with lem :=
  erewrite bind_run by (apply lem); cbv beta; cbn [fst snd].

Lemma configsPresent_forallb cli rawContainers :
  configsPresent cli rawContainers <-> forallb (carriesConfig cli) rawContainers = true.
Proof.
  unfold configsPresent. induction rawContainers as [| c l IH]; cbn [forallb].
  - split; [done | constructor].
  - rewrite Forall_cons, andb_true_iff, IH.
    assert (Hc : (forall response,
                    client.ContainerInspect cli (types.ID c) = Ok response ->
                    types.Config response <> None)
                 <-> carriesConfig cli c = true); [| by rewrite Hc].
    unfold carriesConfig.
    destruct (client.ContainerInspect cli (types.ID c)) as [response | err].
    + rewrite bool_decide_eq_true. split; [by intros H; apply H |].
      by intros H response' [= <-].
    + split; [done | discriminate].
Qed.

Lemma panics_false cli :
  panics cli = false <-> configsPresent cli (answer (client.ContainerList cli)).
Proof.
  unfold panics, answer. destruct (client.ContainerList cli) as [raw | err].
  - by rewrite configsPresent_forallb, negb_false_iff.
  - split; [constructor | done].
Qed.

(** ** The first loop of the container step *)

Lemma inspectContainer_run cli c acc s :
  inspectContainer cli c acc s =
  ((s, if carriesConfig cli c
       then Returned (acc ++ [inspected cli c])
       else Panicked nilDereference),
   inspectTrace cli c).
Proof.
  unfold inspectContainer, carriesConfig, inspected, inspectTrace.
  rewrite (bind_run _ _ _ _ _ _ (call_run _ _ _)).
  destruct (client.ContainerInspect cli (types.ID c)) as [response | err]; [| done].
  by destruct (types.Config response).
Qed.

(** The loop keeps the containers in order and stops at the first answer
    without configuration; it does not touch the snapshot. *)
Lemma inspectLoop_run cli rawContainers acc s :
  forRange (inspectContainer cli) rawContainers acc s =
  ((s, if forallb (carriesConfig cli) rawContainers
       then Returned (acc ++ map (inspected cli) rawContainers)
       else Panicked nilDereference),
   inspectionsTrace cli rawContainers).
Proof.
  revert acc. induction rawContainers as [| c l IH]; intros acc.
  - simpl. by rewrite app_nil_r.
  - cbn [forRange forallb map inspectionsTrace].
    destruct (carriesConfig cli c) eqn:Hc.
    + erewrite bind_run by (rewrite inspectContainer_run, Hc; reflexivity).
      rewrite IH. cbn [fst snd andb]. by rewrite <- app_assoc.
    + erewrite bind_panic by (rewrite inspectContainer_run, Hc; reflexivity).
      cbn [andb]. by rewrite app_nil_r.
Qed.

(** ** The steps, run *)

Lemma snapshotContainers_run snapshot cli :
  snapshotContainers snapshot cli =
  match client.ContainerList cli with
  | Err err => ((snapshot, Returned (Some err)), [ApiCall OpContainerList])
  | Ok rawContainers =>
      (if forallb (carriesConfig cli) rawContainers
       then (withContainers cli rawContainers snapshot, Returned None)
       else (snapshot, Panicked nilDereference),
       ApiCall OpContainerList :: inspectionsTrace cli rawContainers)
  end.
Proof.
  unfold snapshotContainers.
  rewrite (bind_run _ _ _ _ _ _ (call_run _ _ _)). cbn [fst snd].
  destruct (client.ContainerList cli) as [raw | err]; [| done].
  destruct (forallb (carriesConfig cli) raw) eqn:Hall.
  - erewrite bind_run by (rewrite inspectLoop_run, Hall; reflexivity).
    cbn [app fst snd].
    pose proof (classify_fold (map (inspected cli) raw) noCounters) as H.
    cbv zeta in H. rewrite map_Container_inspected in H.
    destruct H as (Hr & Hs & Hh & Hu & Hst).
    cbv zeta. unfold bind, assign, ret. cbn [fst snd app].
    rewrite Hr, Hs, Hh, Hu, Hst. cbn [noCounters runningContainers
      stoppedContainers healthyContainers unhealthyContainers stacks].
    rewrite union_empty_l_L, size_list_to_set_distinct, app_nil_r. reflexivity.
  - erewrite bind_panic by (rewrite inspectLoop_run, Hall; reflexivity).
    reflexivity.
Qed.

Lemma snapshotInfo_run snapshot cli :
  snapshotInfo snapshot cli =
  (match client.Info cli with
   | Err err => (snapshot, Returned (Some err))
   | Ok info =>
       (setRawInfo (Some info)
          (setTotalMemory (types.MemTotal info)
             (setTotalCPU (types.NCPU info)
                (setDockerVersion (types.ServerVersion info)
                   (setSwarm (swarm.ControlAvailable (types.Swarm info)) snapshot)))),
        Returned None)
   end, [ApiCall OpInfo]).
Proof. unfold snapshotInfo. by destruct (client.Info cli). Qed.

Lemma snapshotSwarmServices_run snapshot cli :
  snapshotSwarmServices snapshot cli =
  (match client.ServiceList cli with
   | Err err => (snapshot, Returned (Some err))
   | Ok services =>
       (setStackCount
          (StackCount snapshot
           + distinct (labelValues (fun s => swarm.Labels (swarm.Spec s))
                                   "com.docker.stack.namespace" services))
          (setServiceCount (length services) snapshot),
        Returned None)
   end, [ApiCall OpServiceList]).
Proof.
  unfold snapshotSwarmServices.
  rewrite (bind_run _ _ _ _ _ _ (call_run _ _ _)). cbn [fst snd].
  destruct (client.ServiceList cli) as [services | err]; [| done].
  cbv zeta. unfold bind, assign, ret. cbn [fst snd app StackCount setServiceCount].
  by rewrite serviceStacks_size.
Qed.

Lemma snapshotNodes_run snapshot cli :
  snapshotNodes snapshot cli =
  (match client.NodeList cli with
   | Err err => (snapshot, Returned (Some err))
   | Ok nodes =>
       (setNodeCount (length nodes)
          (setTotalMemory (wrap64 (sumMemoryBytes nodes))
             (setTotalCPU (wrap64 (sumNanoCPUs nodes) ÷ 10 ^ 9)%Z snapshot)),
        Returned None)
   end, [ApiCall OpNodeList]).
Proof.
  unfold snapshotNodes.
  rewrite (bind_run _ _ _ _ _ _ (call_run _ _ _)). cbn [fst snd].
  destruct (client.NodeList cli) as [nodes | err]; [| done].
  cbv zeta. rewrite sumNodes_wrap. cbn [fst snd].
  rewrite (quo64_billion (wrap64 (sumNanoCPUs nodes))) by apply wrap64_range.
  reflexivity.
Qed.

Lemma snapshotImages_run snapshot cli :
  snapshotImages snapshot cli =
  (match client.ImageList cli with
   | Err err => (snapshot, Returned (Some err))
   | Ok images =>
       (setRawImages images (setImageCount (length images) snapshot), Returned None)
   end, [ApiCall OpImageList]).
Proof. unfold snapshotImages. by destruct (client.ImageList cli). Qed.

Lemma snapshotVolumes_run snapshot cli :
  snapshotVolumes snapshot cli =
  (match client.VolumeList cli with
   | Err err => (snapshot, Returned (Some err))
   | Ok volumes =>
       (setRawVolumes volumes
          (setVolumeCount (length (types.Volumes volumes)) snapshot), Returned None)
   end, [ApiCall OpVolumeList]).
Proof. unfold snapshotVolumes. by destruct (client.VolumeList cli). Qed.

Lemma snapshotNetworks_run snapshot cli :
  snapshotNetworks snapshot cli =
  (match client.NetworkList cli with
   | Err err => (snapshot, Returned (Some err))
   | Ok networks => (setRawNetworks networks snapshot, Returned None)
   end, [ApiCall OpNetworkList]).
Proof. unfold snapshotNetworks. by destruct (client.NetworkList cli). Qed.

Lemma snapshotVersion_run snapshot cli :
  snapshotVersion snapshot cli =
  (match client.ServerVersion cli with
   | Err err => (snapshot, Returned (Some err))
   | Ok version => (setRawVersion (Some version) snapshot, Returned None)
   end, [ApiCall OpServerVersion]).
Proof. unfold snapshotVersion. by destruct (client.ServerVersion cli). Qed.

(** Rewriting with the closed forms of the steps. *)
Ltac step_values :=
  unfold after;
  rewrite ?snapshotInfo_run, ?snapshotSwarmServices_run, ?snapshotNodes_run,
    ?snapshotContainers_run, ?snapshotImages_run, ?snapshotVolumes_run,
    ?snapshotNetworks_run, ?snapshotVersion_run.

Lemma after_containers_ok s cli rawContainers :
  client.ContainerList cli = Ok rawContainers ->
  configsPresent cli rawContainers ->
  snapshotContainers s cli =
  ((withContainers cli rawContainers s, Returned None),
   ApiCall OpContainerList :: inspectionsTrace cli rawContainers).
Proof.
  intros Hl Hc. apply configsPresent_forallb in Hc.
  by rewrite snapshotContainers_run, Hl, Hc.
Qed.

Lemma after_nodes_ok cli s nodes :
  client.NodeList cli = Ok nodes ->
  after snapshotNodes cli s =
  setNodeCount (length nodes)
    (setTotalMemory (wrap64 (sumMemoryBytes nodes))
       (setTotalCPU (wrap64 (sumNanoCPUs nodes) ÷ 10 ^ 9)%Z s)).
Proof. intros Hn. unfold after. by rewrite snapshotNodes_run, Hn. Qed.

(** ** The orchestration, run *)

Ltac plain_step f r :=
  intros; unfold step, after, stepTrace, bind; rewrite f;
  destruct r; reflexivity.

Lemma step_info_run msg cli s :
  step snapshotInfo msg cli s =
  ((after snapshotInfo cli s, Returned tt), stepTrace OpInfo (client.Info cli) msg).
Proof. plain_step snapshotInfo_run (client.Info cli). Qed.

Lemma step_services_run msg cli s :
  step snapshotSwarmServices msg cli s =
  ((after snapshotSwarmServices cli s, Returned tt),
   stepTrace OpServiceList (client.ServiceList cli) msg).
Proof. plain_step snapshotSwarmServices_run (client.ServiceList cli). Qed.

Lemma step_nodes_run msg cli s :
  step snapshotNodes msg cli s =
  ((after snapshotNodes cli s, Returned tt),
   stepTrace OpNodeList (client.NodeList cli) msg).
Proof. plain_step snapshotNodes_run (client.NodeList cli). Qed.

Lemma step_images_run msg cli s :
  step snapshotImages msg cli s =
  ((after snapshotImages cli s, Returned tt),
   stepTrace OpImageList (client.ImageList cli) msg).
Proof. plain_step snapshotImages_run (client.ImageList cli). Qed.

Lemma step_volumes_run msg cli s :
  step snapshotVolumes msg cli s =
  ((after snapshotVolumes cli s, Returned tt),
   stepTrace OpVolumeList (client.VolumeList cli) msg).
Proof. plain_step snapshotVolumes_run (client.VolumeList cli). Qed.

Lemma step_networks_run msg cli s :
  step snapshotNetworks msg cli s =
  ((after snapshotNetworks cli s, Returned tt),
   stepTrace OpNetworkList (client.NetworkList cli) msg).
Proof. plain_step snapshotNetworks_run (client.NetworkList cli). Qed.

Lemma step_version_run msg cli s :
  step snapshotVersion msg cli s =
  ((after snapshotVersion cli s, Returned tt),
   stepTrace OpServerVersion (client.ServerVersion cli) msg).
Proof. plain_step snapshotVersion_run (client.ServerVersion cli). Qed.

(** The container step is the one that may panic; the struct is then as
    the step found it. *)
Lemma step_containers_run cli s :
  step snapshotContainers "unable to snapshot containers" cli s =
  ((after snapshotContainers cli s,
    if panics cli then Panicked nilDereference else Returned tt),
   containerTrace cli).
Proof.
  unfold step, after, containerTrace, panics, bind. rewrite snapshotContainers_run.
  destruct (client.ContainerList cli) as [raw | err]; [| done].
  destruct (forallb (carriesConfig cli) raw); [| done].
  cbn [fst snd negb warnOnError ret]. by rewrite app_nil_r.
Qed.

Lemma after_containers_panics cli s :
  panics cli = true -> after snapshotContainers cli s = s.
Proof.
  unfold panics, after. rewrite snapshotContainers_run.
  destruct (client.ContainerList cli) as [raw | err]; [| done].
  by destruct (forallb (carriesConfig cli) raw).
Qed.

Lemma swarmSteps_run cli s :
  swarmSteps cli s =
  ((if Swarm s
    then after snapshotNodes cli (after snapshotSwarmServices cli s)
    else s, Returned tt),
   if Swarm s
   then stepTrace OpServiceList (client.ServiceList cli)
                  "unable to snapshot Swarm services"
        ++ stepTrace OpNodeList (client.NodeList cli)
                     "unable to snapshot Swarm nodes"
   else []).
Proof.
  unfold swarmSteps.
  erewrite bind_run by reflexivity. cbv beta. cbn [fst snd app].
  destruct (Swarm s); [| done].
  run_with step_services_run. by rewrite step_nodes_run.
Qed.

Lemma Swarm_after_info cli :
  Swarm (after snapshotInfo cli (setStackCount 0 zero)) = manager cli.
Proof.
  unfold after, manager. rewrite snapshotInfo_run.
  by destruct (client.Info cli).
Qed.

(** The struct as the steps before the container step leave it. *)
Lemma collect_prefix cli now s0 :
  exists s1,
    collect cli now s0 =
    (let r := (run step snapshotContainers "unable to snapshot containers" cli then
               run step snapshotImages "unable to snapshot images" cli then
               run step snapshotVolumes "unable to snapshot volumes" cli then
               run step snapshotNetworks "unable to snapshot networks" cli then
               run step snapshotVersion "unable to snapshot engine version" cli then
               assign (setTime now)) s1 in
     (r.1,
      stepTrace OpInfo (client.Info cli) "unable to snapshot engine information"
      ++ (if manager cli
          then stepTrace OpServiceList (client.ServiceList cli)
                         "unable to snapshot Swarm services"
               ++ stepTrace OpNodeList (client.NodeList cli)
                            "unable to snapshot Swarm nodes"
          else [])
      ++ r.2))
    /\ s1 = (swarmSteps cli (after snapshotInfo cli (setStackCount 0 zero))).1.1.
Proof.
  eexists. split; [| reflexivity].
  unfold collect.
  erewrite bind_run by reflexivity. cbv beta. cbn [fst snd app].
  run_with step_info_run.
  run_with swarmSteps_run. rewrite Swarm_after_info, swarmSteps_run.
  cbn [fst snd]. rewrite Swarm_after_info. reflexivity.
Qed.

Lemma collect_panics cli now s0 :
  panics cli = true ->
  exists s, collect cli now s0 = ((s, Panicked nilDereference), collectTrace cli).
Proof.
  intros Hp. destruct (collect_prefix cli now s0) as (s1 & -> & _).
  exists s1. cbv zeta.
  erewrite bind_panic
    by (rewrite step_containers_run, Hp, (after_containers_panics _ _ Hp); reflexivity).
  unfold collectTrace. by rewrite Hp, app_nil_r.
Qed.

Lemma expectedSnapshot_steps cli now :
  panics cli = false ->
  setTime now
    (after snapshotVersion cli
       (after snapshotNetworks cli
          (after snapshotVolumes cli
             (after snapshotImages cli
                (after snapshotContainers cli
                   (swarmSteps cli
                      (after snapshotInfo cli (setStackCount 0 zero))).1.1)))))
  = expectedSnapshot cli now.
Proof.
  intros Hp. rewrite swarmSteps_run. cbn [fst]. step_values.
  unfold expectedSnapshot, expectedRaw, manager, servicesSeen, nodesSeen, manager, answer.
  unfold panics in Hp.
  destruct (client.ContainerList cli) as [rawContainers | ?];
    [apply negb_false_iff in Hp; rewrite Hp |];
    (destruct (client.Info cli) as [info | ?];
     [destruct (swarm.ControlAvailable (types.Swarm info)) eqn:Hm |];
     destruct (client.ServiceList cli) as [services | ?];
     destruct (client.NodeList cli) as [nodes | ?];
     destruct (client.ImageList cli) as [images | ?];
     destruct (client.VolumeList cli) as [volumes | ?];
     destruct (client.NetworkList cli) as [networks | ?];
     destruct (client.ServerVersion cli) as [version | ?];
     cbn -[wrap64 distinct labelValues count Z.pow Z.quot];
     rewrite ?Hm; cbn -[wrap64 distinct labelValues count Z.pow Z.quot];
     rewrite ?Nat.add_0_r; reflexivity).
Qed.

Lemma collect_returns cli now s0 :
  panics cli = false ->
  collect cli now s0 = ((expectedSnapshot cli now, Returned tt), collectTrace cli).
Proof.
  intros Hp. destruct (collect_prefix cli now s0) as (s1 & -> & ->). cbv zeta.
  erewrite bind_run by (rewrite step_containers_run, Hp; reflexivity).
  cbv beta. cbn [fst snd].
  run_with step_images_run. run_with step_volumes_run.
  run_with step_networks_run. run_with step_version_run.
  unfold assign. cbn [fst snd].
  rewrite (expectedSnapshot_steps cli now Hp).
  unfold collectTrace, tailTrace. by rewrite Hp, !app_nil_r.
Qed.

(** What a call of [CreateSnapshot] does, case by case. *)
Lemma CreateSnapshot_run host :
  CreateSnapshot host =
  match NewClientWithOpts host with
  | Err err => (Returned (None, Some err), [])
  | Ok cli =>
      match client.Ping cli with
      | Err err => (Returned (None, Some err), [ApiCall OpPing; Close])
      | Ok _ =>
          (if panics cli
           then Panicked nilDereference
           else Returned (Some (expectedSnapshot cli (Now host)), None),
           ApiCall OpPing :: collectTrace cli ++ [Close])
      end
  end.
Proof.
  unfold CreateSnapshot. destruct (NewClientWithOpts host) as [cli | err]; [| done].
  rewrite (bind_run _ _ _ _ _ _ (call_run _ _ _)). cbn [fst snd].
  destruct (client.Ping cli) as [[] | err]; [| done].
  destruct (panics cli) eqn:Hp.
  - destruct (collect_panics cli (Now host) zero Hp) as (s & Hs).
    by erewrite bind_panic by exact Hs.
  - erewrite bind_run by (apply collect_returns, Hp).
    cbv beta. cbn [fst snd]. unfold bind, get, ret. cbn [fst snd].
    by rewrite !app_nil_r.
Qed.

(** ** Reading a trace *)

Lemma calls_app t1 t2 : calls (t1 ++ t2) = calls t1 ++ calls t2.
Proof. apply omap_app. Qed.

Lemma called_calls op trace : called op trace <-> op ∈ calls trace.
Proof.
  unfold called, calls. rewrite list_elem_of_omap. split.
  - intros H. by exists (ApiCall op).
  - intros (e & He & Heq). destruct e; by simplify_eq.
Qed.

Lemma calls_stepTrace {A} op (r : result A) msg : calls (stepTrace op r msg) = [op].
Proof. unfold stepTrace. by destruct r. Qed.

Lemma calls_inspectTrace cli c :
  calls (inspectTrace cli c) = [OpContainerInspect (types.ID c)].
Proof.
  unfold inspectTrace. by destruct (client.ContainerInspect cli (types.ID c)).
Qed.

Lemma calls_inspectionsTrace cli rawContainers :
  forallb (carriesConfig cli) rawContainers = true ->
  calls (inspectionsTrace cli rawContainers)
  = map (fun c => OpContainerInspect (types.ID c)) rawContainers.
Proof.
  induction rawContainers as [| c l IH]; [done |].
  cbn [forallb inspectionsTrace map]. intros [Hc Hl]%andb_true_iff.
  by rewrite Hc, calls_app, calls_inspectTrace, (IH Hl).
Qed.

(** Whatever the container step asks, it is the list or an inspection. *)
Lemma calls_containerTrace_shape cli :
  Forall (fun op => op = OpContainerList \/ exists id, op = OpContainerInspect id)
         (calls (containerTrace cli)).
Proof.
  unfold containerTrace. change (calls (ApiCall OpContainerList :: ?t))
    with (OpContainerList :: calls t).
  constructor; [by left |].
  destruct (client.ContainerList cli) as [raw | err]; [| constructor].
  induction raw as [| c l IH]; [constructor |].
  cbn [inspectionsTrace]. rewrite calls_app, calls_inspectTrace.
  constructor; [right; by eexists |].
  destruct (carriesConfig cli c); [exact IH | constructor].
Qed.

Lemma calls_tailTrace cli :
  calls (tailTrace cli) = [OpImageList; OpVolumeList; OpNetworkList; OpServerVersion].
Proof. unfold tailTrace. by rewrite !calls_app, !calls_stepTrace. Qed.


Lemma warnings_app t1 t2 : warnings (t1 ++ t2) = warnings t1 ++ warnings t2.
Proof. apply omap_app. Qed.

Lemma warnings_stepTrace {A} op (r : result A) msg :
  warnings (stepTrace op r msg) = [] <-> is_ok r = true.
Proof. unfold stepTrace. by destruct r. Qed.

Lemma warnings_inspectionsTrace cli rawContainers :
  forallb (carriesConfig cli) rawContainers = true ->
  warnings (inspectionsTrace cli rawContainers) = [] <->
  Forall (fun c => is_ok (client.ContainerInspect cli (types.ID c)) = true) rawContainers.
Proof.
  induction rawContainers as [| c l IH]; [by split; [constructor |] |].
  cbn [forallb inspectionsTrace]. intros [Hc Hl]%andb_true_iff.
  rewrite Hc, warnings_app, app_nil, (IH Hl), Forall_cons.
  assert (H : warnings (inspectTrace cli c) = [] <->
              is_ok (client.ContainerInspect cli (types.ID c)) = true).
  { unfold inspectTrace. by destruct (client.ContainerInspect cli (types.ID c)). }
  by rewrite H.
Qed.

Lemma stepTrace_no_Close {A} op (r : result A) msg :
  Forall (fun e => e <> Close) (stepTrace op r msg).
Proof. unfold stepTrace. destruct r; repeat constructor; discriminate. Qed.

Lemma containerTrace_no_Close cli : Forall (fun e => e <> Close) (containerTrace cli).
Proof.
  unfold containerTrace. constructor; [discriminate |].
  destruct (client.ContainerList cli) as [raw | err].
  - induction raw as [| c l IH]; [constructor |].
    cbn [inspectionsTrace]. apply Forall_app. split.
    + unfold inspectTrace.
      destruct (client.ContainerInspect cli (types.ID c)); repeat constructor; discriminate.
    + destruct (carriesConfig cli c); [exact IH | constructor].
  - repeat constructor. discriminate.
Qed.

Lemma collectTrace_no_Close cli : Forall (fun e => e <> Close) (collectTrace cli).
Proof.
  unfold collectTrace, tailTrace.
  repeat (apply Forall_app; split);
    try apply stepTrace_no_Close; try apply containerTrace_no_Close.
  - destruct (manager cli); [| constructor].
    apply Forall_app. split; apply stepTrace_no_Close.
  - destruct (panics cli); [constructor |].
    repeat (apply Forall_app; split); apply stepTrace_no_Close.
Qed.

(** ** Completed runs *)

Lemma CreateSnapshot_returns host cli :
  NewClientWithOpts host = Ok cli ->
  client.Ping cli = Ok tt ->
  configsPresent cli (answer (client.ContainerList cli)) ->
  CreateSnapshot host =
  (Returned (Some (expectedSnapshot cli (Now host)), None),
   ApiCall OpPing :: collectTrace cli ++ [Close]).
Proof.
  intros Hc Hp Hcfg. apply panics_false in Hcfg.
  by rewrite CreateSnapshot_run, Hc, Hp, Hcfg.
Qed.

Lemma step_containers_ok s cli rawContainers :
  client.ContainerList cli = Ok rawContainers ->
  configsPresent cli rawContainers ->
  after snapshotContainers cli s = withContainers cli rawContainers s
  /\ (snapshotContainers s cli).1.2 = Returned None.
Proof.
  intros Hl Hc. unfold after. by rewrite (after_containers_ok _ _ _ Hl Hc).
Qed.

(** ** Fatal failures and the missing configuration *)

(** C1, at the input where the code departs from it.  With the client
    constructed and the ping answered, [CreateSnapshot] does not return when
    the engine lists a container whose inspection answers without a
    configuration: reading [response.Config.Env] panics. *)
Theorem CreateSnapshot_panics_without_config
    (host : Host) (cli : client.Client) (rawContainers : list types.Container)
    (c : types.Container) (response : types.ContainerJSON) :
  NewClientWithOpts host = Ok cli ->
  client.Ping cli = Ok tt ->
  client.ContainerList cli = Ok rawContainers ->
  c ∈ rawContainers ->
  client.ContainerInspect cli (types.ID c) = Ok response ->
  types.Config response = None ->
  (CreateSnapshot host).1 = Panicked nilDereference.
Proof.
  intros Hc Hp Hl Hin Hr Hcfg. rewrite CreateSnapshot_run, Hc, Hp.
  replace (panics cli) with true; [done |]. symmetry.
  apply not_false_iff_true. rewrite panics_false, Hl. cbn [answer].
  unfold configsPresent. rewrite Forall_forall. intros H.
  by apply (H c Hin response Hr).
Qed.

Lemma CreateSnapshot_panics_without_config_witness :
  CreateSnapshot (Examples.hostOf Healthy.broken) =
  (Panicked nilDereference,
   [ ApiCall OpPing; ApiCall OpInfo; ApiCall OpContainerList;
     ApiCall (OpContainerInspect "c1"); ApiCall (OpContainerInspect "c2");
     ApiCall (OpContainerInspect "c3"); Close ]).
Proof.
  apply injective_projections; [| reflexivity].
  apply (CreateSnapshot_panics_without_config
           (Examples.hostOf Healthy.broken) Healthy.broken Examples.five
           (Examples.container "c3" "running" "Up 5 minutes" [])
           {| types.Config := None |});
    try reflexivity.
  do 2 apply list_elem_of_further. apply list_elem_of_here.
Defined.

(** ** Stacks *)

(** C2. With the engine a swarm manager, for every list of services and
    every list of containers it reports (each answered inspection carrying
    its configuration), the stack count of the snapshot is the number of
    distinct [com.docker.stack.namespace] values over the services plus the
    number of distinct [com.docker.compose.project] values over the
    containers; a name present on both sides counts twice. *)
Theorem StackCount_is_sum_of_distinct_labels
    (host : Host) (cli : client.Client) (info : types.Info)
    (services : list swarm.Service) (rawContainers : list types.Container) :
  NewClientWithOpts host = Ok cli ->
  client.Ping cli = Ok tt ->
  client.Info cli = Ok info ->
  swarm.ControlAvailable (types.Swarm info) = true ->
  client.ServiceList cli = Ok services ->
  client.ContainerList cli = Ok rawContainers ->
  configsPresent cli rawContainers ->
  exists snapshot,
    (CreateSnapshot host).1 = Returned (Some snapshot, None)
    /\ StackCount snapshot =
       distinct (labelValues (fun s => swarm.Labels (swarm.Spec s))
                             "com.docker.stack.namespace" services)
       + distinct (labelValues types.Labels "com.docker.compose.project" rawContainers).
Proof.
  intros Hc Hp Hi Hm Hs Hl Hcfg. eexists. split.
  - rewrite (CreateSnapshot_returns host cli Hc Hp); [reflexivity |].
    by rewrite Hl.
  - cbn [expectedSnapshot StackCount]. unfold servicesSeen, manager.
    by rewrite Hi, Hm, Hs, Hl.
Qed.

Lemma StackCount_is_sum_of_distinct_labels_witness :
  exists snapshot,
    (CreateSnapshot (Examples.hostOf Examples.manager)).1 = Returned (Some snapshot, None)
    /\ StackCount snapshot = 1 + 2.
Proof.
  destruct (StackCount_is_sum_of_distinct_labels
              (Examples.hostOf Examples.manager) Examples.manager
              (Examples.info true) Examples.services Examples.five
              eq_refl eq_refl eq_refl eq_refl eq_refl eq_refl)
    as (snapshot & Hout & Hcount).
  - apply configsPresent_forallb. reflexivity.
  - exists snapshot. split; [exact Hout |]. rewrite Hcount. reflexivity.
Defined.

(** ** Classification of containers *)

(** C3, as amended.  When the container list answers and each answered
    inspection carries its configuration, the step returns and: a status
    text containing ["(healthy)"] adds one to the healthy count; a status
    text containing ["(unhealthy)"] adds one to the unhealthy count unless it
    also contains ["(healthy)"], in which case only the healthy count moves;
    a text with neither marker moves neither count.  Both counts are
    determined by the status texts alone, whatever the lifecycle states
    are. *)
Theorem health_counts_follow_status_markers
    (snapshot : DockerSnapshot) (cli : client.Client)
    (rawContainers : list types.Container) :
  client.ContainerList cli = Ok rawContainers ->
  configsPresent cli rawContainers ->
  let s' := after snapshotContainers cli snapshot in
  (snapshotContainers snapshot cli).1.2 = Returned None
  /\ HealthyContainerCount s' = count saysHealthy rawContainers
  /\ UnhealthyContainerCount s' =
     count (fun c => negb (saysHealthy c) && saysUnhealthy c) rawContainers
  /\ (forall acc c,
        let r := classifyContainer acc c in
        (saysHealthy (Container c) = true ->
           healthyContainers r = S (healthyContainers acc)
           /\ unhealthyContainers r = unhealthyContainers acc)
        /\ (saysHealthy (Container c) = false -> saysUnhealthy (Container c) = true ->
           unhealthyContainers r = S (unhealthyContainers acc)
           /\ healthyContainers r = healthyContainers acc)
        /\ (saysHealthy (Container c) = false -> saysUnhealthy (Container c) = false ->
           healthyContainers r = healthyContainers acc
           /\ unhealthyContainers r = unhealthyContainers acc))
  /\ (forall snapshot' cli' rawContainers',
        client.ContainerList cli' = Ok rawContainers' ->
        configsPresent cli' rawContainers' ->
        map types.Status rawContainers' = map types.Status rawContainers ->
        HealthyContainerCount (after snapshotContainers cli' snapshot')
        = HealthyContainerCount s'
        /\ UnhealthyContainerCount (after snapshotContainers cli' snapshot')
           = UnhealthyContainerCount s')
  /\ HealthyContainerCount s' + UnhealthyContainerCount s' <= length rawContainers.
Proof.
  intros Hl Hcfg. cbv zeta.
  destruct (step_containers_ok snapshot cli rawContainers Hl Hcfg) as [-> ->].
  split_and !.
  - reflexivity.
  - reflexivity.
  - reflexivity.
  - apply classifyContainer_health.
  - intros s2 cli2 raw2 Hl2 Hcfg2 Hst.
    destruct (step_containers_ok s2 cli2 raw2 Hl2 Hcfg2) as [-> _].
    cbn [withContainers HealthyContainerCount UnhealthyContainerCount
         setRawContainers setSnapshotRaw setStackCount setUnhealthyContainerCount
         setHealthyContainerCount].
    unfold saysHealthy, saysUnhealthy.
    rewrite <- !(count_map types.Status
                   (fun st => negb (Contains st "(healthy)") && Contains st "(unhealthy)")),
            <- !(count_map types.Status (fun st => Contains st "(healthy)")).
    by rewrite Hst.
  - cbn [withContainers HealthyContainerCount UnhealthyContainerCount
         setRawContainers setSnapshotRaw setStackCount setUnhealthyContainerCount
         setHealthyContainerCount].
    rewrite count_disjoint.
    + apply count_le_length.
    + intros c ->. reflexivity.
Qed.

Lemma health_counts_follow_status_markers_witness :
  let s' := after snapshotContainers
              (Healthy.listing (Examples.bothMarkers :: Examples.paused :: Examples.five))
              zero in
  HealthyContainerCount s' = 2 /\ UnhealthyContainerCount s' = 0.
Proof.
  cbv zeta.
  destruct (health_counts_follow_status_markers zero
              (Healthy.listing (Examples.bothMarkers :: Examples.paused :: Examples.five))
              (Examples.bothMarkers :: Examples.paused :: Examples.five) eq_refl)
    as (_ & Hh & Hu & _).
  - apply configsPresent_forallb. reflexivity.
  - rewrite Hh, Hu. split; reflexivity.
Defined.

(** C3 as stated fails: a status text containing ["(unhealthy)"] after
    ["(healthy)"] leaves the unhealthy count where it was, in a step that
    returns. *)
Lemma unhealthy_marker_shadowed_by_healthy :
  saysUnhealthy Examples.bothMarkers = true
  /\ snapshotContainers zero (Healthy.listing [Examples.bothMarkers])
     = ((withContainers (Healthy.listing [Examples.bothMarkers])
                        [Examples.bothMarkers] zero,
         Returned None),
        [ ApiCall OpContainerList; ApiCall (OpContainerInspect "c6");
          Warn "connection refused"
               "failed to retrieve env for container c6. Skipping." ])
  /\ UnhealthyContainerCount
       (after snapshotContainers (Healthy.listing [Examples.bothMarkers]) zero) = 0.
Proof. split_and !; reflexivity. Qed.

(** C4. When the container list answers and each answered inspection
    carries its configuration, the step returns and: a container whose state
    is exactly ["exited"] adds one to the stopped count, one whose state is
    exactly ["running"] adds one to the running count, any other state adds
    to neither; so the two counts are the numbers of such containers in the
    list.  In particular, for five containers, three running and two exited,
    one of the running ones with ["(healthy)"] in its status text and no
    other health marker anywhere, the step records running 3, stopped 2,
    healthy 1, unhealthy 0. *)
Theorem state_counts_follow_exact_state
    (snapshot : DockerSnapshot) (cli : client.Client)
    (rawContainers : list types.Container) :
  client.ContainerList cli = Ok rawContainers ->
  configsPresent cli rawContainers ->
  let s' := after snapshotContainers cli snapshot in
  (snapshotContainers snapshot cli).1.2 = Returned None
  /\ RunningContainerCount s' = count isRunning rawContainers
  /\ StoppedContainerCount s' = count isExited rawContainers
  /\ (forall acc c,
        let r := classifyContainer acc c in
        (types.State (Container c) = "exited" ->
           stoppedContainers r = S (stoppedContainers acc)
           /\ runningContainers r = runningContainers acc)
        /\ (types.State (Container c) = "running" ->
           runningContainers r = S (runningContainers acc)
           /\ stoppedContainers r = stoppedContainers acc)
        /\ (types.State (Container c) <> "exited" ->
            types.State (Container c) <> "running" ->
           runningContainers r = runningContainers acc
           /\ stoppedContainers r = stoppedContainers acc))
  /\ (length rawContainers = 5 ->
      count isRunning rawContainers = 3 ->
      count isExited rawContainers = 2 ->
      (exists h, h ∈ rawContainers /\ isRunning h = true /\ saysHealthy h = true) ->
      count saysHealthy rawContainers = 1 ->
      count saysUnhealthy rawContainers = 0 ->
      RunningContainerCount s' = 3 /\ StoppedContainerCount s' = 2
      /\ HealthyContainerCount s' = 1 /\ UnhealthyContainerCount s' = 0).
Proof.
  intros Hl Hcfg. cbv zeta.
  destruct (step_containers_ok snapshot cli rawContainers Hl Hcfg) as [-> ->].
  split_and !.
  - reflexivity.
  - reflexivity.
  - reflexivity.
  - apply classifyContainer_state.
  - intros _ Hr He _ Hh Hu.
    cbn [withContainers RunningContainerCount StoppedContainerCount
         HealthyContainerCount UnhealthyContainerCount
         setRawContainers setSnapshotRaw setStackCount setUnhealthyContainerCount
         setHealthyContainerCount setStoppedContainerCount].
    split_and !; try done.
    pose proof (count_le (fun c => negb (saysHealthy c) && saysUnhealthy c)
                  saysUnhealthy rawContainers) as Hle.
    rewrite Hu in Hle. apply Nat.le_0_r, Hle.
    by intros c [_ H]%andb_true_iff.
Qed.

Lemma state_counts_follow_exact_state_witness :
  let s' := after snapshotContainers Examples.manager zero in
  RunningContainerCount s' = 3 /\ StoppedContainerCount s' = 2
  /\ HealthyContainerCount s' = 1 /\ UnhealthyContainerCount s' = 0.
Proof.
  destruct (state_counts_follow_exact_state zero Examples.manager Examples.five eq_refl)
    as (_ & _ & _ & _ & H).
  - apply configsPresent_forallb. reflexivity.
  - apply H; try reflexivity.
    exists (Examples.container "c1" "running" "Up 2 hours (healthy)"
              [("com.docker.compose.project", "shop")]).
    split_and !; [apply list_elem_of_here | reflexivity | reflexivity].
Defined.

(** C7. When the container list answers and each answered inspection
    carries its configuration, the step returns; running plus stopped never
    exceeds the number of containers, and the two are equal exactly when
    every container is in state ["running"] or ["exited"]. *)
Theorem running_plus_stopped_le_total
    (snapshot : DockerSnapshot) (cli : client.Client)
    (rawContainers : list types.Container) :
  client.ContainerList cli = Ok rawContainers ->
  configsPresent cli rawContainers ->
  let s' := after snapshotContainers cli snapshot in
  (snapshotContainers snapshot cli).1.2 = Returned None
  /\ length (Containers (SnapshotRaw s')) = length rawContainers
  /\ RunningContainerCount s' + StoppedContainerCount s' <= length rawContainers
  /\ (RunningContainerCount s' + StoppedContainerCount s' = length rawContainers
      <-> Forall (fun c => types.State c = "running" \/ types.State c = "exited")
                 rawContainers).
Proof.
  intros Hl Hcfg. cbv zeta.
  destruct (step_containers_ok snapshot cli rawContainers Hl Hcfg) as [-> ->].
  cbn [withContainers RunningContainerCount StoppedContainerCount
       Containers SnapshotRaw
       setRawContainers setSnapshotRaw setStackCount setUnhealthyContainerCount
       setHealthyContainerCount setStoppedContainerCount setRunningContainerCount].
  rewrite (count_disjoint isRunning isExited) by apply running_not_exited.
  split_and !.
  - reflexivity.
  - apply length_map.
  - apply count_le_length.
  - rewrite count_all. apply Forall_iff. intros c. apply running_or_exited.
Qed.

Lemma running_plus_stopped_le_total_witness :
  let s' := after snapshotContainers
              (Healthy.listing (Examples.paused :: Examples.five)) zero in
  RunningContainerCount s' + StoppedContainerCount s' <= 6
  /\ RunningContainerCount s' + StoppedContainerCount s' <> 6.
Proof.
  cbv zeta.
  destruct (running_plus_stopped_le_total zero
              (Healthy.listing (Examples.paused :: Examples.five))
              (Examples.paused :: Examples.five) eq_refl) as (_ & _ & Hle & Hiff).
  - apply configsPresent_forallb. reflexivity.
  - split; [exact Hle |].
    intros Heq. apply Hiff in Heq. apply Forall_cons in Heq as [[Hp | Hp] _];
      discriminate Hp.
Defined.

(** ** Inspection failures *)





(** ** Swarm nodes *)

(** C5, as amended.  With the engine a swarm manager, the node list
    answered and each answered inspection carrying its configuration, the
    node count is the number of nodes, the total CPU is the [int64] sum of
    the nano-CPU values divided by [10^9] with truncation toward zero, and
    the total memory is the [int64] sum of the memory values, whatever
    engine info reported.  When the true sums lie in the [int64] range these
    are the sums themselves, and for a non-negative CPU sum the quotient is
    its floor. *)
Theorem node_totals_override_engine_info
    (host : Host) (cli : client.Client) (info : types.Info) (nodes : list swarm.Node) :
  NewClientWithOpts host = Ok cli ->
  client.Ping cli = Ok tt ->
  client.Info cli = Ok info ->
  swarm.ControlAvailable (types.Swarm info) = true ->
  client.NodeList cli = Ok nodes ->
  configsPresent cli (answer (client.ContainerList cli)) ->
  exists snapshot,
    (CreateSnapshot host).1 = Returned (Some snapshot, None)
    /\ NodeCount snapshot = length nodes
    /\ TotalCPU snapshot = (wrap64 (sumNanoCPUs nodes) ÷ 10 ^ 9)%Z
    /\ TotalMemory snapshot = wrap64 (sumMemoryBytes nodes)
    /\ (int64 (sumNanoCPUs nodes) ->
        TotalCPU snapshot = (sumNanoCPUs nodes ÷ 10 ^ 9)%Z
        /\ ((0 <= sumNanoCPUs nodes)%Z ->
            TotalCPU snapshot = (sumNanoCPUs nodes / 10 ^ 9)%Z))
    /\ (int64 (sumMemoryBytes nodes) ->
        TotalMemory snapshot = sumMemoryBytes nodes).
Proof.
  intros Hc Hp Hi Hm Hn Hcfg. eexists.
  split; [by rewrite (CreateSnapshot_returns host cli Hc Hp Hcfg) |].
  cbn [expectedSnapshot NodeCount TotalCPU TotalMemory]. unfold nodesSeen, manager.
  rewrite Hi, Hm, Hn. split_and !; try reflexivity.
  - intros Hr. rewrite (wrap64_id _ Hr). split; [done |].
    intros Hpos. by rewrite Z.quot_div_nonneg by lia.
  - intros Hr. by rewrite (wrap64_id _ Hr).
Qed.

Lemma node_totals_override_engine_info_witness :
  exists snapshot,
    (CreateSnapshot (Examples.hostOf (Examples.cluster Examples.nodes))).1
    = Returned (Some snapshot, None)
    /\ NodeCount snapshot = 3
    /\ TotalCPU snapshot = 7%Z
    /\ TotalMemory snapshot = 14000000000%Z.
Proof.
  destruct (node_totals_override_engine_info
              (Examples.hostOf (Examples.cluster Examples.nodes))
              (Examples.cluster Examples.nodes) (Examples.info true) Examples.nodes
              eq_refl eq_refl eq_refl eq_refl eq_refl)
    as (snapshot & Hout & Hn & _ & _ & Hcpu & Hmem).
  - constructor.
  - exists snapshot. split_and !.
    + exact Hout.
    + exact Hn.
    + destruct Hcpu as [_ Hfloor]; [by vm_compute |].
      rewrite Hfloor; [reflexivity | by vm_compute].
    + rewrite Hmem; [reflexivity | by vm_compute].
Defined.

(** C5 as stated fails when the nano-CPU values add up past the [int64]
    range: the sum wraps, and the total of the returned snapshot is not the
    floor of the true sum. *)
Lemma node_cpu_total_wraps :
  (sumNanoCPUs Examples.hugeNodes / 10 ^ 9 = 9223372036)%Z
  /\ (fun out => match out with
                 | Returned (Some snapshot, None) => Some (TotalCPU snapshot)
                 | _ => None
                 end)
       (CreateSnapshot (Examples.hostOf (Examples.cluster Examples.hugeNodes))).1
     = Some (-9223372036)%Z.
Proof. split; reflexivity. Qed.



(** C9. If the engine-info call fails, the engine is never asked for its
    services or its nodes, whatever it would have answered and however the
    run ends; and when each answered inspection carries its configuration
    the run returns a snapshot whose swarm flag is false and whose service
    and node counts are 0. *)
Theorem info_failure_skips_swarm_steps
    (host : Host) (cli : client.Client) (err : error) :
  NewClientWithOpts host = Ok cli ->
  client.Ping cli = Ok tt ->
  client.Info cli = Err err ->
  ~ called OpServiceList (CreateSnapshot host).2
  /\ ~ called OpNodeList (CreateSnapshot host).2
  /\ (configsPresent cli (answer (client.ContainerList cli)) ->
      exists snapshot,
        (CreateSnapshot host).1 = Returned (Some snapshot, None)
        /\ Swarm snapshot = false
        /\ ServiceCount snapshot = 0
        /\ NodeCount snapshot = 0).
Proof.
  intros Hc Hp Hi.
  assert (Hm : manager cli = false) by (unfold manager; by rewrite Hi).
  assert (Hcalls : forall op,
            called op (CreateSnapshot host).2 ->
            op = OpPing \/ op = OpInfo \/ op = OpContainerList
            \/ (exists id, op = OpContainerInspect id)
            \/ op ∈ [OpImageList; OpVolumeList; OpNetworkList; OpServerVersion]).
  { intros op. rewrite called_calls, CreateSnapshot_run, Hc, Hp. cbn [snd].
    change (calls (ApiCall OpPing :: ?t)) with (OpPing :: calls t).
    unfold collectTrace. rewrite Hm, !calls_app, calls_stepTrace.
    rewrite elem_of_cons, !elem_of_app, list_elem_of_singleton, elem_of_nil.
    intros [? | [[? | [[] | [H | H]]] | H]]; try tauto.
    - pose proof (calls_containerTrace_shape cli) as Hshape.
      rewrite Forall_forall in Hshape. destruct (Hshape op H); tauto.
    - destruct (panics cli); [by apply elem_of_nil in H |].
      rewrite calls_tailTrace in H. tauto.
    - by apply elem_of_nil in H. }
  split_and !.
  - intros H. apply Hcalls in H as [? | [? | [? | [[? ?] | H]]]]; try discriminate.
    repeat (apply elem_of_cons in H as [? | H]; [discriminate |]).
    by apply elem_of_nil in H.
  - intros H. apply Hcalls in H as [? | [? | [? | [[? ?] | H]]]]; try discriminate.
    repeat (apply elem_of_cons in H as [? | H]; [discriminate |]).
    by apply elem_of_nil in H.
  - intros Hcfg. eexists. rewrite (CreateSnapshot_returns host cli Hc Hp Hcfg).
    split; [reflexivity |].
    cbn [expectedSnapshot Swarm ServiceCount NodeCount].
    unfold servicesSeen, nodesSeen. by rewrite Hm.
Qed.

Lemma info_failure_skips_swarm_steps_witness :
  exists snapshot,
    (CreateSnapshot
       (Examples.hostOf
          (Examples.engine (Err Examples.refused) (Ok Examples.services)
             (Ok Examples.nodes) (Ok Examples.five) Examples.noInspect))).1
    = Returned (Some snapshot, None)
    /\ Swarm snapshot = false
    /\ ServiceCount snapshot = 0
    /\ NodeCount snapshot = 0.
Proof.
  apply (info_failure_skips_swarm_steps
           (Examples.hostOf
              (Examples.engine (Err Examples.refused) (Ok Examples.services)
                 (Ok Examples.nodes) (Ok Examples.five) Examples.noInspect))
           (Examples.engine (Err Examples.refused) (Ok Examples.services)
              (Ok Examples.nodes) (Ok Examples.five) Examples.noInspect)
           Examples.refused eq_refl eq_refl eq_refl).
  apply configsPresent_forallb. reflexivity.
Defined.

(** ** Properties of the trace *)

(** X1. The deferred [cli.Close()] is the last event of every run that got
    a client, and the only [Close] of that run; a run that got no client
    leaves no event at all. *)
Theorem close_runs_once_and_last (host : Host) :
  match NewClientWithOpts host with
  | Err _ => (CreateSnapshot host).2 = []
  | Ok _ =>
      exists body,
        (CreateSnapshot host).2 = body ++ [Close]
        /\ Forall (fun e => e <> Close) body
  end.
Proof.
  rewrite CreateSnapshot_run.
  destruct (NewClientWithOpts host) as [cli | err]; [| done].
  exists (ApiCall OpPing ::
          match client.Ping cli with Err _ => [] | Ok _ => collectTrace cli end).
  split; [by destruct (client.Ping cli) |]. constructor; [discriminate |].
  destruct (client.Ping cli); [apply collectTrace_no_Close | constructor].
Qed.

Lemma close_runs_once_and_last_witness :
  (exists body,
     (CreateSnapshot (Examples.hostOf Healthy.unreachable)).2 = body ++ [Close]
     /\ Forall (fun e => e <> Close) body)
  /\ (exists body,
        (CreateSnapshot (Examples.hostOf Healthy.broken)).2 = body ++ [Close]
        /\ Forall (fun e => e <> Close) body).
Proof.
  split.
  - exact (close_runs_once_and_last (Examples.hostOf Healthy.unreachable)).
  - exact (close_runs_once_and_last (Examples.hostOf Healthy.broken)).
Defined.

(** X2. A failure of client construction or of the ping is returned as it
    is, with no snapshot.  In the first case nothing is asked of the
    engine; in the second the ping is the only call, and the client is
    closed. *)
Theorem setup_failure_stops_everything (host : Host) (err : error) :
  (NewClientWithOpts host = Err err ->
   CreateSnapshot host = (Returned (None, Some err), []))
  /\ (forall cli,
        NewClientWithOpts host = Ok cli ->
        client.Ping cli = Err err ->
        CreateSnapshot host = (Returned (None, Some err), [ApiCall OpPing; Close])).
Proof.
  split.
  - intros H. by rewrite CreateSnapshot_run, H.
  - intros cli Hc Hp. by rewrite CreateSnapshot_run, Hc, Hp.
Qed.

Lemma setup_failure_stops_everything_witness :
  CreateSnapshot (Examples.hostOf Healthy.unreachable)
  = (Returned (None, Some "Cannot connect to the Docker daemon"),
     [ApiCall OpPing; Close]).
Proof.
  apply (proj2 (setup_failure_stops_everything
                  (Examples.hostOf Healthy.unreachable)
                  "Cannot connect to the Docker daemon")
               Healthy.unreachable eq_refl eq_refl).
Defined.

(** X3. Once the ping is answered, the events of a run are, in order: the
    ping; engine info; services and nodes if info reported swarm control;
    the container list followed by one inspection per listed container, up
    to and including the first that answers without configuration; then,
    unless such an answer made the run panic, images, volumes, networks and
    version; and the close.  A failed call is followed at once by its
    warning, and no failed call cuts the sequence short. *)
Theorem trace_of_a_run (host : Host) (cli : client.Client) :
  NewClientWithOpts host = Ok cli ->
  client.Ping cli = Ok tt ->
  (CreateSnapshot host).2 = ApiCall OpPing :: collectTrace cli ++ [Close].
Proof. intros Hc Hp. by rewrite CreateSnapshot_run, Hc, Hp. Qed.

Lemma trace_of_a_run_witness :
  (CreateSnapshot (Examples.hostOf Examples.manager)).2 =
  [ ApiCall OpPing; ApiCall OpInfo; ApiCall OpServiceList; ApiCall OpNodeList;
    Warn "connection refused" "unable to snapshot Swarm nodes";
    ApiCall OpContainerList;
    ApiCall (OpContainerInspect "c1");
    ApiCall (OpContainerInspect "c2");
    Warn "connection refused" "failed to retrieve env for container c2. Skipping.";
    ApiCall (OpContainerInspect "c3");
    Warn "connection refused" "failed to retrieve env for container c3. Skipping.";
    ApiCall (OpContainerInspect "c4");
    Warn "connection refused" "failed to retrieve env for container c4. Skipping.";
    ApiCall (OpContainerInspect "c5");
    Warn "connection refused" "failed to retrieve env for container c5. Skipping.";
    ApiCall OpImageList; Warn "connection refused" "unable to snapshot images";
    ApiCall OpVolumeList; Warn "connection refused" "unable to snapshot volumes";
    ApiCall OpNetworkList; Warn "connection refused" "unable to snapshot networks";
    ApiCall OpServerVersion;
    Warn "connection refused" "unable to snapshot engine version";
    Close ].
Proof.
  exact (trace_of_a_run (Examples.hostOf Examples.manager) Examples.manager
           eq_refl eq_refl).
Defined.

Lemma trace_of_a_panicking_run :
  (CreateSnapshot (Examples.hostOf Healthy.broken)).2 =
  [ ApiCall OpPing; ApiCall OpInfo; ApiCall OpContainerList;
    ApiCall (OpContainerInspect "c1"); ApiCall (OpContainerInspect "c2");
    ApiCall (OpContainerInspect "c3"); Close ].
Proof. reflexivity. Qed.

(** X4. Once the ping is answered and each answered inspection carries its
    configuration, the run logs no warning exactly when every call it makes
    is answered: engine info, services and nodes if the swarm block runs,
    the container list, the inspection of each listed container, images,
    volumes, networks and version. *)
Theorem log_is_empty_iff_every_call_answered (host : Host) (cli : client.Client) :
  NewClientWithOpts host = Ok cli ->
  client.Ping cli = Ok tt ->
  configsPresent cli (answer (client.ContainerList cli)) ->
  warnings (CreateSnapshot host).2 = [] <-> everyCallAnswered cli.
Proof.
  intros Hc Hp Hcfg. rewrite CreateSnapshot_run, Hc, Hp. cbn [snd].
  change (warnings (ApiCall OpPing :: collectTrace cli ++ [Close]))
    with (warnings (collectTrace cli ++ [Close])).
  rewrite warnings_app. change (warnings [Close]) with (@nil (error * string)).
  rewrite app_nil_r. apply panics_false in Hcfg.
  unfold collectTrace, tailTrace, everyCallAnswered. rewrite Hcfg.
  rewrite !warnings_app, !app_nil, !warnings_stepTrace.
  assert (Hct : warnings (containerTrace cli) = [] <->
                is_ok (client.ContainerList cli) = true
                /\ Forall (fun c => is_ok (client.ContainerInspect cli (types.ID c)) = true)
                          (answer (client.ContainerList cli))).
  { unfold containerTrace, answer, panics in *.
    destruct (client.ContainerList cli) as [raw | e]; [| by split; [| intros []]].
    apply negb_false_iff in Hcfg.
    change (warnings (ApiCall OpContainerList :: ?t)) with (warnings t).
    rewrite (warnings_inspectionsTrace _ _ Hcfg). tauto. }
  rewrite Hct. destruct (manager cli).
  - rewrite warnings_app, app_nil, !warnings_stepTrace. tauto.
  - simpl. split; [| tauto].
    intros (? & _ & ? & ?). split_and !; try tauto. discriminate.
Qed.

Lemma log_is_empty_iff_every_call_answered_witness :
  warnings (CreateSnapshot (Examples.hostOf Healthy.swarmManager)).2 = []
  /\ warnings (CreateSnapshot (Examples.hostOf Healthy.standalone)).2 = [].
Proof.
  split.
  - apply (log_is_empty_iff_every_call_answered
             (Examples.hostOf Healthy.swarmManager) Healthy.swarmManager
             eq_refl eq_refl).
    + apply configsPresent_forallb. reflexivity.
    + unfold everyCallAnswered. simpl. split_and !; try done.
      repeat constructor.
  - apply (log_is_empty_iff_every_call_answered
             (Examples.hostOf Healthy.standalone) Healthy.standalone
             eq_refl eq_refl).
    + apply configsPresent_forallb. reflexivity.
    + unfold everyCallAnswered. simpl. split_and !; try done.
      repeat constructor.
Defined.

(** ** Properties of the returned snapshot *)

(** X5. Once the ping is answered and each answered inspection carries its
    configuration, the run returns, and the returned snapshot is determined
    field by field by the engine's answers: a failed call leaves its own
    fields at their zero values and no one else's; the node totals replace
    those of engine info only when the swarm block runs and the node list
    answers; services contribute only when the swarm block runs; every raw
    payload is the engine's answer as it came. *)
Theorem snapshot_is_function_of_answers (host : Host) (cli : client.Client) :
  NewClientWithOpts host = Ok cli ->
  client.Ping cli = Ok tt ->
  configsPresent cli (answer (client.ContainerList cli)) ->
  (CreateSnapshot host).1 = Returned (Some (expectedSnapshot cli (Now host)), None).
Proof. intros Hc Hp Hcfg. by rewrite (CreateSnapshot_returns host cli Hc Hp Hcfg). Qed.

Lemma snapshot_is_function_of_answers_witness :
  (fun out =>
     match out with
     | Returned (Some s, None) =>
         Some (Swarm s, TotalCPU s, TotalMemory s, NodeCount s, ServiceCount s,
               StackCount s, ImageCount s, VolumeCount s,
               (RunningContainerCount s, StoppedContainerCount s,
                HealthyContainerCount s, UnhealthyContainerCount s))
     | _ => None
     end) (CreateSnapshot (Examples.hostOf Healthy.swarmManager)).1
  = Some (true, 7%Z, 14000000000%Z, 3, 3, 3, 2, 1, (3, 2, 1, 0)).
Proof.
  rewrite (snapshot_is_function_of_answers
             (Examples.hostOf Healthy.swarmManager) Healthy.swarmManager
             eq_refl eq_refl).
  - reflexivity.
  - apply configsPresent_forallb. reflexivity.
Defined.

(** X6. Every snapshot [CreateSnapshot] returns is consistent with itself:
    the image and volume counts are the lengths of the raw image and volume
    lists; running plus stopped, and healthy plus unhealthy, do not exceed
    the length of the raw container list; the stack count does not exceed
    the service count plus the number of containers; and a snapshot whose
    swarm flag is false has no services and no nodes. *)
Theorem returned_snapshot_is_consistent
    (host : Host) (snapshot : DockerSnapshot) (err : option error) :
  (CreateSnapshot host).1 = Returned (Some snapshot, err) ->
  ImageCount snapshot = length (Images (SnapshotRaw snapshot))
  /\ VolumeCount snapshot = length (types.Volumes (Volumes (SnapshotRaw snapshot)))
  /\ RunningContainerCount snapshot + StoppedContainerCount snapshot
     <= length (Containers (SnapshotRaw snapshot))
  /\ HealthyContainerCount snapshot + UnhealthyContainerCount snapshot
     <= length (Containers (SnapshotRaw snapshot))
  /\ StackCount snapshot
     <= ServiceCount snapshot + length (Containers (SnapshotRaw snapshot))
  /\ (Swarm snapshot = false -> ServiceCount snapshot = 0 /\ NodeCount snapshot = 0).
Proof.
  rewrite CreateSnapshot_run.
  destruct (NewClientWithOpts host) as [cli | e]; [| discriminate].
  destruct (client.Ping cli); [| discriminate].
  destruct (panics cli); [discriminate |].
  cbn [fst]. intros H.
  assert (Hs : snapshot = expectedSnapshot cli (Now host)) by congruence.
  rewrite Hs. clear H Hs.
  cbn [expectedSnapshot expectedRaw ImageCount VolumeCount RunningContainerCount
       StoppedContainerCount HealthyContainerCount UnhealthyContainerCount
       StackCount ServiceCount NodeCount Swarm SnapshotRaw Images Volumes Containers].
  rewrite length_map. split_and !.
  - reflexivity.
  - by destruct (client.VolumeList cli).
  - rewrite (count_disjoint isRunning isExited) by apply running_not_exited.
    apply count_le_length.
  - rewrite count_disjoint; [apply count_le_length |].
    by intros c ->.
  - apply Nat.add_le_mono.
    + etrans; [apply distinct_le_length | apply labelValues_length].
    + etrans; [apply distinct_le_length | apply labelValues_length].
  - unfold servicesSeen, nodesSeen. by intros ->.
Qed.

Lemma returned_snapshot_is_consistent_witness :
  exists snapshot,
    (CreateSnapshot (Examples.hostOf Healthy.standalone)).1
    = Returned (Some snapshot, None)
    /\ ImageCount snapshot = 2
    /\ length (Images (SnapshotRaw snapshot)) = 2
    /\ ServiceCount snapshot = 0 /\ NodeCount snapshot = 0.
Proof.
  eexists. split; [reflexivity |].
  destruct (returned_snapshot_is_consistent
              (Examples.hostOf Healthy.standalone) _ None eq_refl)
    as (Hi & _ & _ & _ & _ & Hs).
  split_and !; [reflexivity | reflexivity | by apply Hs | by apply Hs].
Defined.

(** X7. A step that does not return nil has written nothing: whichever of
    the eight steps it is, and whether it returns an error or panics, the
    snapshot it leaves is the one it was given. *)
Theorem failed_step_writes_nothing
    (f : Step) (snapshot : DockerSnapshot) (cli : client.Client) :
  f ∈ steps ->
  (f snapshot cli).1.2 <> Returned None ->
  (f snapshot cli).1.1 = snapshot.
Proof.
  unfold steps. rewrite !elem_of_cons, elem_of_nil.
  intros [-> | [-> | [-> | [-> | [-> | [-> | [-> | [-> | []]]]]]]]].
  - rewrite snapshotInfo_run. by destruct (client.Info cli).
  - rewrite snapshotSwarmServices_run. by destruct (client.ServiceList cli).
  - rewrite snapshotNodes_run. by destruct (client.NodeList cli).
  - rewrite snapshotContainers_run.
    destruct (client.ContainerList cli) as [raw | e]; [| done].
    by destruct (forallb (carriesConfig cli) raw).
  - rewrite snapshotImages_run. by destruct (client.ImageList cli).
  - rewrite snapshotVolumes_run. by destruct (client.VolumeList cli).
  - rewrite snapshotNetworks_run. by destruct (client.NetworkList cli).
  - rewrite snapshotVersion_run. by destruct (client.ServerVersion cli).
Qed.

Lemma failed_step_writes_nothing_witness :
  (snapshotNodes (expectedSnapshot Examples.manager 5) Examples.manager).1.1
  = expectedSnapshot Examples.manager 5
  /\ (snapshotContainers (expectedSnapshot Examples.manager 5) Healthy.broken).1.1
     = expectedSnapshot Examples.manager 5.
Proof.
  split.
  - apply failed_step_writes_nothing.
    + unfold steps. do 2 apply list_elem_of_further. apply list_elem_of_here.
    + discriminate.
  - apply failed_step_writes_nothing.
    + unfold steps. do 3 apply list_elem_of_further. apply list_elem_of_here.
    + discriminate.
Defined.

(** ** What the counts depend on *)

(** X8. The five counts of the container step do not depend on the order
    in which the engine lists the containers, in runs where each answered
    inspection carries its configuration. *)
Theorem container_counts_ignore_order
    (snapshot : DockerSnapshot) (cli1 cli2 : client.Client)
    (raw1 raw2 : list types.Container) :
  client.ContainerList cli1 = Ok raw1 ->
  client.ContainerList cli2 = Ok raw2 ->
  configsPresent cli1 raw1 ->
  configsPresent cli2 raw2 ->
  raw1 ≡ₚ raw2 ->
  let s1 := after snapshotContainers cli1 snapshot in
  let s2 := after snapshotContainers cli2 snapshot in
  RunningContainerCount s1 = RunningContainerCount s2
  /\ StoppedContainerCount s1 = StoppedContainerCount s2
  /\ HealthyContainerCount s1 = HealthyContainerCount s2
  /\ UnhealthyContainerCount s1 = UnhealthyContainerCount s2
  /\ StackCount s1 = StackCount s2.
Proof.
  intros H1 H2 Hc1 Hc2 Hp. cbv zeta.
  destruct (step_containers_ok snapshot cli1 raw1 H1 Hc1) as [-> _].
  destruct (step_containers_ok snapshot cli2 raw2 H2 Hc2) as [-> _].
  cbn [withContainers RunningContainerCount StoppedContainerCount
       HealthyContainerCount UnhealthyContainerCount StackCount
       setRawContainers setSnapshotRaw setStackCount setUnhealthyContainerCount
       setHealthyContainerCount setStoppedContainerCount setRunningContainerCount].
  rewrite !(count_Permutation _ _ _ Hp),
    (distinct_labels_Permutation types.Labels _ _ _ Hp).
  by split_and !.
Qed.

Lemma container_counts_ignore_order_witness :
  let s1 := after snapshotContainers Examples.manager zero in
  let s2 := after snapshotContainers (Healthy.listing (reverse Examples.five)) zero in
  RunningContainerCount s1 = RunningContainerCount s2
  /\ StoppedContainerCount s1 = StoppedContainerCount s2
  /\ HealthyContainerCount s1 = HealthyContainerCount s2
  /\ UnhealthyContainerCount s1 = UnhealthyContainerCount s2
  /\ StackCount s1 = StackCount s2.
Proof.
  apply (container_counts_ignore_order zero Examples.manager
           (Healthy.listing (reverse Examples.five))
           Examples.five (reverse Examples.five) eq_refl eq_refl).
  - apply configsPresent_forallb. reflexivity.
  - apply configsPresent_forallb. reflexivity.
  - symmetry. apply reverse_Permutation.
Defined.

(** X9. The totals and the count written by the node step do not depend on
    the order in which the engine lists the nodes, even when the running
    [int64] sums wrap on the way. *)
Theorem node_totals_ignore_order
    (snapshot : DockerSnapshot) (cli1 cli2 : client.Client)
    (nodes1 nodes2 : list swarm.Node) :
  client.NodeList cli1 = Ok nodes1 ->
  client.NodeList cli2 = Ok nodes2 ->
  nodes1 ≡ₚ nodes2 ->
  after snapshotNodes cli1 snapshot = after snapshotNodes cli2 snapshot.
Proof.
  intros H1 H2 Hp.
  rewrite (after_nodes_ok _ _ _ H1), (after_nodes_ok _ _ _ H2).
  by rewrite (sumNanoCPUs_Permutation _ _ Hp), (sumMemoryBytes_Permutation _ _ Hp),
    (Permutation_length Hp).
Qed.

Lemma node_totals_ignore_order_witness :
  after snapshotNodes (Examples.cluster Healthy.wrappingNodes) zero
  = after snapshotNodes (Examples.cluster Healthy.rotatedNodes) zero.
Proof.
  apply (node_totals_ignore_order zero
           (Examples.cluster Healthy.wrappingNodes) (Examples.cluster Healthy.rotatedNodes)
           Healthy.wrappingNodes Healthy.rotatedNodes eq_refl eq_refl).
  symmetry. apply (Permutation_cons_append [_; _]).
Defined.

(** X10. In runs where each answered inspection carries its
    configuration, the container step reads three things of a listed
    container for its counts: its state, its status text and its
    [com.docker.compose.project] label.  Two lists that agree on these,
    entry by entry, get the same five counts, whatever the identifiers,
    images and other labels are. *)
Theorem container_counts_read_state_status_project
    (snapshot : DockerSnapshot) (cli1 cli2 : client.Client)
    (raw1 raw2 : list types.Container) :
  client.ContainerList cli1 = Ok raw1 ->
  client.ContainerList cli2 = Ok raw2 ->
  configsPresent cli1 raw1 ->
  configsPresent cli2 raw2 ->
  Forall2 (fun c1 c2 =>
             types.State c1 = types.State c2
             /\ types.Status c1 = types.Status c2
             /\ types.Labels c1 !! "com.docker.compose.project"
                = types.Labels c2 !! "com.docker.compose.project") raw1 raw2 ->
  let s1 := after snapshotContainers cli1 snapshot in
  let s2 := after snapshotContainers cli2 snapshot in
  RunningContainerCount s1 = RunningContainerCount s2
  /\ StoppedContainerCount s1 = StoppedContainerCount s2
  /\ HealthyContainerCount s1 = HealthyContainerCount s2
  /\ UnhealthyContainerCount s1 = UnhealthyContainerCount s2
  /\ StackCount s1 = StackCount s2.
Proof.
  intros H1 H2 Hc1 Hc2 Hagree. cbv zeta.
  destruct (step_containers_ok snapshot cli1 raw1 H1 Hc1) as [-> _].
  destruct (step_containers_ok snapshot cli2 raw2 H2 Hc2) as [-> _].
  cbn [withContainers RunningContainerCount StoppedContainerCount
       HealthyContainerCount UnhealthyContainerCount StackCount
       setRawContainers setSnapshotRaw setStackCount setUnhealthyContainerCount
       setHealthyContainerCount setStoppedContainerCount setRunningContainerCount].
  assert (Hl : labelValues types.Labels "com.docker.compose.project" raw1
               = labelValues types.Labels "com.docker.compose.project" raw2).
  { clear H1 H2 Hc1 Hc2. unfold labelValues.
    induction Hagree as [| c1 c2 l1 l2 (_ & _ & Hc) _ IH]; [done |].
    simpl. unfold omap in IH. by rewrite Hc, IH. }
  rewrite Hl. split_and !; try done; apply count_Forall2;
    (eapply Forall2_impl; [exact Hagree |]); intros c1 c2 (Hs & Ht & _);
    unfold isRunning, isExited, saysHealthy, saysUnhealthy; by rewrite ?Hs, ?Ht.
Qed.

Lemma container_counts_read_state_status_project_witness :
  let s1 := after snapshotContainers Examples.manager zero in
  let s2 := after snapshotContainers (Healthy.listing Healthy.relabelled) zero in
  RunningContainerCount s1 = RunningContainerCount s2
  /\ StoppedContainerCount s1 = StoppedContainerCount s2
  /\ HealthyContainerCount s1 = HealthyContainerCount s2
  /\ UnhealthyContainerCount s1 = UnhealthyContainerCount s2
  /\ StackCount s1 = StackCount s2.
Proof.
  apply (container_counts_read_state_status_project zero Examples.manager
           (Healthy.listing Healthy.relabelled)
           Examples.five Healthy.relabelled eq_refl eq_refl).
  - apply configsPresent_forallb. reflexivity.
  - apply configsPresent_forallb. reflexivity.
  - repeat constructor.
Defined.

(** ** Substring tests and labels *)

(** X11. The substring test used for the health markers is containment in
    the usual sense: it succeeds exactly when the text splits into a
    prefix, the substring, and a suffix. *)
Theorem Contains_iff_split (s substr : string) :
  Contains s substr = true <-> exists pre post, s = pre +:+ substr +:+ post.
Proof.
  induction s as [| b s IH].
  - cbn [Contains]. rewrite orb_false_r, HasPrefix_iff. split.
    + intros (post & H). by exists "", post.
    + intros (pre & post & H). destruct pre as [| ? ?]; [| discriminate].
      by exists post.
  - cbn [Contains]. rewrite orb_true_iff, HasPrefix_iff, IH. split.
    + intros [(post & H) | (pre & post & H)].
      * by exists "", post.
      * exists (String b pre), post. simpl. by rewrite H.
    + intros (pre & post & H). destruct pre as [| a pre].
      * left. by exists post.
      * right. simpl in H. injection H as _ ->. by exists pre, post.
Qed.

Lemma Contains_iff_split_witness :
  Contains "Up 2 hours (healthy)" "(healthy)" = true
  /\ ~ (exists pre post, "(unhealthy)" = pre +:+ "(healthy)" +:+ post).
Proof.
  split.
  - apply Contains_iff_split. by exists "Up 2 hours ", "".
  - intros H. apply Contains_iff_split in H. discriminate H.
Defined.

(** X12. Services without a [com.docker.stack.namespace] label, and
    containers without a [com.docker.compose.project] label, add nothing to
    the stack count, whatever other labels they carry; the services are
    still counted as services. *)
Theorem unlabelled_objects_add_no_stack (snapshot : DockerSnapshot) (cli : client.Client) :
  (forall services,
     client.ServiceList cli = Ok services ->
     Forall (fun s => swarm.Labels (swarm.Spec s) !! "com.docker.stack.namespace" = None)
            services ->
     StackCount (after snapshotSwarmServices cli snapshot) = StackCount snapshot
     /\ ServiceCount (after snapshotSwarmServices cli snapshot) = length services)
  /\ (forall rawContainers,
        client.ContainerList cli = Ok rawContainers ->
        Forall (fun c => types.Labels c !! "com.docker.compose.project" = None)
               rawContainers ->
        StackCount (after snapshotContainers cli snapshot) = StackCount snapshot).
Proof.
  split.
  - intros services Hl Hnone. unfold after.
    rewrite snapshotSwarmServices_run, Hl. cbn [fst].
    rewrite (labelValues_none (fun s => swarm.Labels (swarm.Spec s)) _ _ Hnone).
    split; [apply Nat.add_0_r | reflexivity].
  - intros raw Hl Hnone. unfold after. rewrite snapshotContainers_run, Hl.
    destruct (forallb (carriesConfig cli) raw); [| reflexivity].
    cbn [fst withContainers StackCount setRawContainers setSnapshotRaw setStackCount].
    rewrite (labelValues_none types.Labels _ _ Hnone). apply Nat.add_0_r.
Qed.

Lemma unlabelled_objects_add_no_stack_witness :
  StackCount
    (after snapshotContainers
       (Healthy.listing
          [ Examples.container "a" "running" "Up" [("tier", "web")];
            Examples.container "b" "exited" "Exited (1)" [] ])
       (setStackCount 4 zero)) = 4.
Proof.
  apply (proj2 (unlabelled_objects_add_no_stack (setStackCount 4 zero)
                  (Healthy.listing
                     [ Examples.container "a" "running" "Up" [("tier", "web")];
                       Examples.container "b" "exited" "Exited (1)" [] ]))
               [ Examples.container "a" "running" "Up" [("tier", "web")];
                 Examples.container "b" "exited" "Exited (1)" [] ]
               eq_refl).
  repeat constructor.
Defined.

(** X13. When the container list answers and each answered inspection
    carries its configuration, a container whose inspection answers appears
    in the raw per-container list at its own position with the environment
    of that configuration; and the step inspects each listed container once,
    by its identifier, in list order. *)
Theorem inspected_container_carries_env
    (snapshot : DockerSnapshot) (cli : client.Client)
    (rawContainers : list types.Container) :
  client.ContainerList cli = Ok rawContainers ->
  configsPresent cli rawContainers ->
  (forall i c response config,
     rawContainers !! i = Some c ->
     client.ContainerInspect cli (types.ID c) = Ok response ->
     types.Config response = Some config ->
     Containers (SnapshotRaw (after snapshotContainers cli snapshot)) !! i
     = Some {| Container := c; Env := types.Env config |})
  /\ calls (snapshotContainers snapshot cli).2
     = OpContainerList :: map (fun c => OpContainerInspect (types.ID c)) rawContainers.
Proof.
  intros Hl Hcfg. split.
  - intros i c response config Hi Hok Hconfig.
    destruct (step_containers_ok snapshot cli rawContainers Hl Hcfg) as [-> _].
    change (Containers (SnapshotRaw (withContainers cli rawContainers snapshot)))
      with (inspected cli <$> rawContainers).
    rewrite list_lookup_fmap, Hi. simpl. unfold inspected. by rewrite Hok, Hconfig.
  - rewrite (after_containers_ok _ _ _ Hl Hcfg). cbn [snd].
    change (calls (ApiCall OpContainerList :: ?t)) with (OpContainerList :: calls t).
    apply configsPresent_forallb in Hcfg. by rewrite (calls_inspectionsTrace _ _ Hcfg).
Qed.

Lemma inspected_container_carries_env_witness :
  Containers (SnapshotRaw (after snapshotContainers Examples.manager zero)) !! 0
  = Some {| Container := Examples.container "c1" "running" "Up 2 hours (healthy)"
                           [("com.docker.compose.project", "shop")];
            Env := ["PATH=/bin"] |}.
Proof.
  assert (Hcfg : configsPresent Examples.manager Examples.five)
    by (apply configsPresent_forallb; reflexivity).
  apply (proj1 (inspected_container_carries_env zero Examples.manager Examples.five
                  eq_refl Hcfg)
               0 _ {| types.Config := Some {| types.Env := ["PATH=/bin"] |} |}
               {| types.Env := ["PATH=/bin"] |});
    reflexivity.
Defined.

(** ** Panics and returns *)

(** X14. [CreateSnapshot] panics exactly when the client is constructed,
    the ping and the container list are answered, and the inspection of some
    listed container answers without a configuration; the panic is then the
    nil pointer dereference, and no other panic occurs. *)
Theorem CreateSnapshot_panics_iff (host : Host) (reason : string) :
  (CreateSnapshot host).1 = Panicked reason <->
  reason = nilDereference
  /\ exists cli rawContainers,
       NewClientWithOpts host = Ok cli
       /\ client.Ping cli = Ok tt
       /\ client.ContainerList cli = Ok rawContainers
       /\ ~ configsPresent cli rawContainers.
Proof.
  rewrite CreateSnapshot_run. split.
  - destruct (NewClientWithOpts host) as [cli | err]; [| discriminate].
    destruct (client.Ping cli) as [[] | err] eqn:Hp; [| discriminate].
    destruct (panics cli) eqn:Hpanic; [| discriminate].
    cbn [fst]. intros [= <-]. split; [done |].
    unfold panics in Hpanic.
    destruct (client.ContainerList cli) as [raw | err] eqn:Hl; [| discriminate].
    exists cli, raw. split_and !; try done.
    rewrite configsPresent_forallb. apply negb_true_iff in Hpanic. by rewrite Hpanic.
  - intros (-> & cli & raw & -> & -> & Hl & Hno).
    replace (panics cli) with true; [done |].
    unfold panics. rewrite Hl. symmetry. apply negb_true_iff.
    rewrite configsPresent_forallb in Hno. by apply not_true_is_false.
Qed.

Lemma CreateSnapshot_panics_iff_witness :
  (CreateSnapshot (Examples.hostOf Healthy.broken)).1 = Panicked nilDereference
  /\ (CreateSnapshot (Examples.hostOf Healthy.standalone)).1 <> Panicked nilDereference.
Proof.
  split.
  - apply CreateSnapshot_panics_iff. split; [done |].
    exists Healthy.broken, Examples.five. split_and !; try reflexivity.
    rewrite configsPresent_forallb. discriminate.
  - intros H. apply CreateSnapshot_panics_iff in H as (_ & cli & raw & Hc & _ & Hl & Hno).
    injection Hc as <-. injection Hl as <-.
    apply Hno, configsPresent_forallb. reflexivity.
Defined.

(** X15. [CreateSnapshot] returns a non-nil error exactly when client
    construction or the ping fails, and then it returns no snapshot.  When
    both succeed and each answered inspection carries its configuration, it
    returns a snapshot and a nil error, and the capture time is the clock's.
    When both succeed and every later call fails, it returns the zero
    snapshot with only the capture time set. *)
Theorem CreateSnapshot_error_iff_setup_fails (host : Host) :
  let out := (CreateSnapshot host).1 in
  ((exists snapshot err, out = Returned (snapshot, Some err)) <-> setupFails host)
  /\ (forall snapshot err, out = Returned (snapshot, Some err) -> snapshot = None)
  /\ (forall cli,
        NewClientWithOpts host = Ok cli ->
        client.Ping cli = Ok tt ->
        configsPresent cli (answer (client.ContainerList cli)) ->
        exists snapshot,
          out = Returned (Some snapshot, None) /\ Time snapshot = Now host)
  /\ (forall cli,
        NewClientWithOpts host = Ok cli ->
        client.Ping cli = Ok tt ->
        everyListingFails cli ->
        out = Returned (Some (setTime (Now host) zero), None)).
Proof.
  cbv zeta. rewrite CreateSnapshot_run. unfold setupFails. split_and !.
  - destruct (NewClientWithOpts host) as [cli | err]; [| split; eauto].
    destruct (client.Ping cli); cbn [fst is_ok]; [| split; eauto].
    split; [| discriminate]. intros (s & e & H).
    destruct (panics cli); discriminate.
  - intros s e. destruct (NewClientWithOpts host) as [cli | err];
      [| cbn [fst]; congruence].
    destruct (client.Ping cli); cbn [fst]; [| congruence].
    destruct (panics cli); discriminate.
  - intros cli -> -> Hcfg%panics_false. rewrite Hcfg. eexists. split; reflexivity.
  - intros cli -> -> (Hi & Hl & Him & Hvo & Hn & Hve).
    assert (Hp : panics cli = false).
    { unfold panics. by destruct (client.ContainerList cli). }
    rewrite Hp. cbn [fst]. do 2 f_equal. f_equal.
    unfold expectedSnapshot, expectedRaw, servicesSeen, nodesSeen, manager, answer.
    destruct (client.Info cli); [discriminate |].
    destruct (client.ContainerList cli); [discriminate |].
    destruct (client.ImageList cli); [discriminate |].
    destruct (client.VolumeList cli); [discriminate |].
    destruct (client.NetworkList cli); [discriminate |].
    destruct (client.ServerVersion cli); [discriminate |].
    reflexivity.
Qed.

Lemma CreateSnapshot_error_iff_setup_fails_witness :
  (CreateSnapshot (Examples.hostOf Examples.mute)).1 =
  Returned (Some (setTime 1700000000 zero), None).
Proof.
  destruct (CreateSnapshot_error_iff_setup_fails (Examples.hostOf Examples.mute))
    as (_ & _ & _ & H).
  apply (H Examples.mute eq_refl eq_refl).
  unfold everyListingFails. simpl. tauto.
Defined.
